(** * smart-closet: the clothing segmentation and recognition pipeline

    A shallow embedding of
      - src/services/aiService.ts                   (AIService),
      - src/services/backgroundRemovalService.ts    (BackgroundRemovalService),
      - src/services/clothingSegmentationService.ts (ClothingSegmentationService),
    and the properties their specification states about them.

    Conventions of the embedding.
      - A JavaScript number is an IEEE-754 binary64 value: [spec_float]
        with the operations of [SpecFloat] at precision 53 and maximal
        exponent 1024, every operation rounded to nearest-even.
      - A JavaScript string is a [string], one [ascii] per UTF-16 code
        unit, which covers the strings whose code units are below 256.
        Texts of thrown errors and the suggested tags are kept as their
        UTF-8 bytes; the services only test them against ASCII texts.
        The text of the tag field, which the upload screen splits and
        trims, is a list of UTF-16 code units ([JsText.text]).
      - An [async] method is a function from the state of the outside
        world to a result (a value or a thrown error) and the next state
        of the world.  Every call of the platform (file system, image
        manipulator, network, timers, clock) is a field of [Platform]. *)

From Stdlib Require Import ZArith List String Ascii Bool Lia Permutation.
From Stdlib Require Import SpecFloat DecimalString.
Import ListNotations.
Local Open Scope string_scope.
Local Open Scope Z_scope.

(* ===================================================================== *)
(** * JavaScript numbers *)
(* ===================================================================== *)

Module JsNum.

Definition prec : Z := 53.
Definition emax : Z := 1024.

Definition number : Type := spec_float.

Definition NaN : number := S754_nan.
Definition pos_zero : number := S754_zero false.

(** An integer as a number (exact below 2^53, rounded above). *)
Definition of_Z (z : Z) : number := binary_normalize prec emax z 0 false.

Definition mul : number -> number -> number := SFmul prec emax.
Definition sub : number -> number -> number := SFsub prec emax.
Definition div : number -> number -> number := SFdiv prec emax.

(** The decimal literal [m / 10^k] of the source text: the binary64
    value nearest to it.  [m] and [10^k] are exact for the literals
    used here, so one correctly rounded division gives that value. *)
Definition literal (m : Z) (k : nat) : number :=
  div (of_Z m) (of_Z (10 ^ Z.of_nat k)).

(** [a < b], [a <= b], [a > b] of JavaScript: false when either
    side is NaN. *)
Definition lt (a b : number) : bool := SFltb a b.
Definition le (a b : number) : bool := SFleb a b.
Definition gt (a b : number) : bool := SFltb b a.
Definition ge (a b : number) : bool := SFleb b a.

Definition is_nan (a : number) : bool :=
  match a with S754_nan => true | _ => false end.

(** [Math.floor]: the largest integer not above the argument; zeros,
    infinities and NaN are returned as they are. *)
Definition floor (a : number) : number :=
  match a with
  | S754_finite s m e =>
      if 0 <=? e then a
      else of_Z (cond_Zopp s (Zpos m) / 2 ^ (- e))
  | _ => a
  end.

(** [Math.max] of two arguments: NaN when either is NaN, and +0 is
    larger than -0. *)
Definition max (a b : number) : number :=
  match SFcompare a b with
  | None => NaN
  | Some Lt => b
  | Some Gt => a
  | Some Eq => match a with S754_zero true => b | _ => a end
  end.

(** The integer value of a number that holds one, for reading results. *)
Definition to_Z (a : number) : option Z :=
  match a with
  | S754_zero _ => Some 0
  | S754_finite s m e =>
      if 0 <=? e then Some (cond_Zopp s (Zpos m) * 2 ^ e)
      else if (Zpos m) mod 2 ^ (- e) =? 0
           then Some (cond_Zopp s (Zpos m) / 2 ^ (- e))
           else None
  | _ => None
  end.

(** [Math.round]: the nearest integer, a tie going to the larger one;
    a result of zero keeps the sign of the argument. *)
Definition round (a : number) : number :=
  match a with
  | S754_finite s m e =>
      if 0 <=? e then a
      else
        let z := (2 * cond_Zopp s (Zpos m) + 2 ^ (- e)) / 2 ^ (- e + 1) in
        if z =? 0 then S754_zero s else of_Z z
  | _ => a
  end.

End JsNum.

Import JsNum.

(* ===================================================================== *)
(** * JavaScript strings and arrays *)
(* ===================================================================== *)

Module JsString.

(** [String.prototype.toLowerCase] on one code unit below 256: the
    letters A-Z and the Latin-1 capitals (all of 192..222 but the
    multiplication sign 215) move up by 32. *)
Definition lowerCodeUnit (c : ascii) : ascii :=
  let n := N_of_ascii c in
  if ((65 <=? n) && (n <=? 90))%N
     || ((192 <=? n) && (n <=? 222) && negb (n =? 215))%N
  then ascii_of_N (n + 32) else c.

Fixpoint toLowerCase (s : string) : string :=
  match s with
  | EmptyString => EmptyString
  | String c s' => String (lowerCodeUnit c) (toLowerCase s')
  end.

(** [s.includes(kw)]: [kw] occurs in [s] as a contiguous substring. *)
Fixpoint includes (s kw : string) : bool :=
  prefix kw s
  || match s with
     | EmptyString => false
     | String _ s' => includes s' kw
     end.

(** [s.split('')]: the code units of [s], one by one, and
    [charCodeAt(0)] of each. *)
Definition charCodes (s : string) : list Z :=
  map (fun c => Z.of_N (N_of_ascii c)) (list_ascii_of_string s).

(** [s.split(sep)] for a separator of one code unit. *)
Fixpoint split (sep : ascii) (s : string) : list string :=
  match s with
  | EmptyString => [EmptyString]
  | String c s' =>
      if Ascii.eqb c sep then EmptyString :: split sep s'
      else match split sep s' with
           | head :: tail => String c head :: tail
           | [] => [String c EmptyString]
           end
  end.


End JsString.

Module JsArray.

Section Sort.
Context {A : Type}.
Variable compareFn : A -> A -> number.

(** [Array.prototype.sort(compareFn)]: a stable sort; [b] goes before
    [a] only when [compareFn a b > 0] (a NaN result counts as 0).
    For a consistent comparator every conforming engine returns this
    order. *)
Fixpoint insert (a : A) (l : list A) : list A :=
  match l with
  | [] => [a]
  | b :: l' =>
      if gt (compareFn a b) pos_zero then b :: insert a l'
      else a :: b :: l'
  end.

Fixpoint sort (l : list A) : list A :=
  match l with
  | [] => []
  | a :: l' => insert a (sort l')
  end.
End Sort.

End JsArray.

Module JsText.

(** A text the user types or reads: the list of its UTF-16 code units,
    which is what [split], [trim] and [join] of JavaScript work on. *)
Definition text : Type := list N.

(** [','] *)
Definition comma : N := 44.

(** The white space and the line terminators of ECMAScript, which
    [trim] removes: tab, line feed, vertical tab, form feed, carriage
    return, space, no-break space, the other space separators of
    Unicode (U+1680, U+2000 to U+200A, U+202F, U+205F, the ideographic
    space U+3000), the line and paragraph separators and U+FEFF. *)
Definition isWhiteSpace (u : N) : bool :=
  (((0x0009 <=? u) && (u <=? 0x000D)) || (u =? 0x0020) || (u =? 0x00A0)
   || (u =? 0x1680) || ((0x2000 <=? u) && (u <=? 0x200A))
   || (u =? 0x2028) || (u =? 0x2029) || (u =? 0x202F) || (u =? 0x205F)
   || (u =? 0x3000) || (u =? 0xFEFF))%N.

Fixpoint trimStart (s : text) : text :=
  match s with
  | [] => []
  | u :: s' => if isWhiteSpace u then trimStart s' else s
  end.

Fixpoint trimEnd (s : text) : text :=
  match s with
  | [] => []
  | u :: s' =>
      match trimEnd s' with
      | [] => if isWhiteSpace u then [] else [u]
      | rest => u :: rest
      end
  end.

(** [s.trim()] *)
Definition trim (s : text) : text := trimEnd (trimStart s).

(** [s.split(sep)] for a separator of one code unit. *)
Fixpoint split (sep : N) (s : text) : list text :=
  match s with
  | [] => [[]]
  | u :: s' =>
      if (u =? sep)%N then [] :: split sep s'
      else match split sep s' with
           | head :: tail => (u :: head) :: tail
           | [] => [[u]]
           end
  end.

(** [parts.join(sep)] *)
Fixpoint join (sep : text) (parts : list text) : text :=
  match parts with
  | [] => []
  | [part] => part
  | part :: rest => (part ++ sep ++ join sep rest)%list
  end.

(** A text counts as false in a condition when it is empty. *)
Definition isEmpty (s : text) : bool :=
  match s with [] => true | _ => false end.

(** The code units of the text that a sequence of UTF-8 bytes encodes:
    one code unit for a character of one, two or three bytes, a
    surrogate pair for a character of four. *)
Fixpoint utf16 (bytes : list N) : text :=
  (match bytes with
   | [] => []
   | b0 :: rest =>
       if b0 <? 0x80 then b0 :: utf16 rest
       else if b0 <? 0xE0 then
         match rest with
         | b1 :: rest1 => (b0 mod 0x20 * 0x40 + b1 mod 0x40) :: utf16 rest1
         | _ => [0xFFFD]
         end
       else if b0 <? 0xF0 then
         match rest with
         | b1 :: b2 :: rest2 =>
             (b0 mod 0x10 * 0x1000 + b1 mod 0x40 * 0x40 + b2 mod 0x40)
               :: utf16 rest2
         | _ => [0xFFFD]
         end
       else
         match rest with
         | b1 :: b2 :: b3 :: rest3 =>
             let point := b0 mod 0x08 * 0x40000 + b1 mod 0x40 * 0x1000
                          + b2 mod 0x40 * 0x40 + b3 mod 0x40 in
             (0xD800 + (point - 0x10000) / 0x400)
               :: (0xDC00 + (point - 0x10000) mod 0x400) :: utf16 rest3
         | _ => [0xFFFD]
         end
   end)%N.

(** The text of a string literal of the source, which this file keeps
    as its UTF-8 bytes. *)
Definition ofUtf8 (s : string) : text :=
  utf16 (map N_of_ascii (list_ascii_of_string s)).

End JsText.

Import JsString.

(* ===================================================================== *)
(** * src/types/index.ts *)
(* ===================================================================== *)

Inductive ClothingCategory : Type :=
  | top | bottom | dress | outerwear | shoes | accessories.

(* ===================================================================== *)
(** * Asynchronous code and the platform *)
(* ===================================================================== *)

(** A thrown value: [new Error(message)], or the [TypeError] the engine
    raises on a property access through [undefined]. *)
Inductive JsError : Type :=
  | Error (message : string)
  | TypeError (message : string).

Definition message (e : JsError) : string :=
  match e with Error m | TypeError m => m end.

(** How a promise settles. *)
Inductive Settled (A : Type) : Type :=
  | Resolved (a : A)
  | Rejected (e : JsError).
Arguments Resolved {A} a.
Arguments Rejected {A} e.

(** An [async] computation over the state of the outside world. *)
Definition Async (World A : Type) : Type := World -> Settled A * World.

Module AsyncNotations.

Definition ret {World A} (a : A) : Async World A :=
  fun w => (Resolved a, w).

Definition throw {World A} (e : JsError) : Async World A :=
  fun w => (Rejected e, w).

Definition bind {World A B} (m : Async World A) (k : A -> Async World B)
  : Async World B :=
  fun w => match m w with
           | (Resolved a, w') => k a w'
           | (Rejected e, w') => (Rejected e, w')
           end.

(** [try { m } catch (e) { handler e }] *)
Definition tryCatch {World A} (m : Async World A)
           (handler : JsError -> Async World A) : Async World A :=
  fun w => match m w with
           | (Resolved a, w') => (Resolved a, w')
           | (Rejected e, w') => handler e w'
           end.

Notation "x <- m ;; k" := (bind m (fun x => k))
  (at level 61, m at next level, right associativity).
Notation "m ;;; k" := (bind m (fun _ => k))
  (at level 61, right associativity).

End AsyncNotations.

Import AsyncNotations.

(** A string counts as true in a condition unless it is empty (an
    absent configuration value behaves like the empty one). *)
Definition truthy (s : string) : bool := negb (String.eqb s EmptyString).

(** expo-image-manipulator *)
Inductive SaveFormat : Type := JPEG | PNG.

Record CropRegion : Type := {
  originX : number;
  originY : number;
  crop_width : number;
  crop_height : number;
}.

Inductive Action : Type := crop (region : CropRegion).

Record SaveOptions : Type := {
  format : SaveFormat;
  compress : option number;
}.

Record ImageResult : Type := {
  result_uri : string;
  result_width : number;
  result_height : number;
}.

(** expo-file-system *)
Record FileInfo : Type := {
  exists_ : bool;
  info_size : Z;
}.

Record Blob : Type := { blob_size : Z }.

(** What a [FileReader] ends with: [onloadend] with [reader.result]
    (absent when nothing was read), [onerror], or neither of them within
    the ten seconds of the guarding timer. *)
Inductive FileReaderOutcome : Type :=
  | onloadend (result : option string)
  | onerror
  | readerTimeout.

(** A fetch [Response] whose JSON body has type [J]. *)
Record Response (World J : Type) : Type := {
  ok : bool;
  status : Z;
  text : Async World string;
  json : Async World J;
  blob : Async World Blob;
}.
Arguments ok {World J} _.
Arguments status {World J} _.
Arguments text {World J} _.
Arguments json {World J} _.
Arguments blob {World J} _.

(** The annotation payload of the recognition service.  A field the
    payload lacks is [None]; a coordinate it lacks is NaN, which is what
    [undefined] becomes under [*] and [-]. *)
Record Vertex : Type := { vx : number; vy : number }.

(** A number read from a JSON text.  JSON has no literal for NaN, so
    such a number is never NaN (a literal too large for binary64 reads
    as an infinity). *)
Record JsonNumber : Type := {
  value :> number;
  value_not_nan : is_nan value = false;
}.

Record LocalizedObject : Type := {
  name : option string;
  score : option JsonNumber;
  normalizedVertices : option (list Vertex);   (* boundingPoly.normalizedVertices *)
}.

Record AnnotateImageResponse : Type := {
  localizedObjectAnnotations : option (list LocalizedObject);
}.

Record VisionResult : Type := {
  responses : option (list AnnotateImageResponse);
}.

Record AnnotateRequest : Type := {
  content : string;
  features : list (string * Z);
}.

(** The error payload of the matting service, read as
    [errorData.errors?.[0]?.title]. *)
Record RemoveBgErrorData : Type := { firstErrorTitle : option string }.

(** [Promise.race([fetchPromise, timeoutPromise])]: the fetch settles
    first, or the timer fires first. *)
Inductive Raced (A : Type) : Type :=
  | fetchSettled (s : Settled A)
  | timerFired.
Arguments fetchSettled {A} s.
Arguments timerFired {A}.

(** Everything outside the three services.  [API_CONFIG] belongs to
    src/config/api.ts, which each installation writes for itself, so
    its two keys are parameters. *)
Record Platform (World : Type) : Type := {
  GOOGLE_VISION_API_KEY : string;
  REMOVE_BG_API_KEY : string;
  documentDirectory : string;
  manipulateAsync : string -> list Action -> SaveOptions -> Async World ImageResult;
  readAsStringAsync : string -> Async World string;
  writeAsStringAsync : string -> string -> Async World unit;
  getInfoAsync : string -> Async World FileInfo;
  fetchAnnotate : string -> AnnotateRequest -> Async World (Response World VisionResult);
  fetchRemoveBg : string -> string -> Z ->
                  World -> Raced (Response World RemoveBgErrorData) * World;
  readAsDataURL : Blob -> World -> FileReaderOutcome * World;
  setTimeout : Z -> World -> World;
  Date_now : World -> Z;
}.
Arguments GOOGLE_VISION_API_KEY {World} _.
Arguments REMOVE_BG_API_KEY {World} _.
Arguments documentDirectory {World} _.
Arguments manipulateAsync {World} _.
Arguments readAsStringAsync {World} _.
Arguments writeAsStringAsync {World} _.
Arguments getInfoAsync {World} _.
Arguments fetchAnnotate {World} _.
Arguments fetchRemoveBg {World} _.
Arguments readAsDataURL {World} _.
Arguments setTimeout {World} _.
Arguments Date_now {World} _.

(** [await new Promise(resolve => setTimeout(resolve, ms))] *)
Definition sleep {World} (P : Platform World) (ms : Z) : Async World unit :=
  fun w => (Resolved tt, setTimeout P ms w).

(** An integer in a template literal. *)
Definition showZ (z : Z) : string := NilZero.string_of_int (Z.to_int z).

(* ===================================================================== *)
(** * src/services/aiService.ts *)
(* ===================================================================== *)

Record AIRecognitionResult : Type := {
  ai_category : ClothingCategory;
  ai_confidence : number;
}.

Module AIService.

Definition allCategories : list ClothingCategory :=
  [top; bottom; dress; outerwear; shoes; accessories].

(** [imageUri.split('').reduce((acc, char) => acc + char.charCodeAt(0), 0)].
    The sum is an integer far below 2^53 for every string an engine can
    hold, so the additions are exact and the hash is carried as [Z]. *)
Definition hashOf (imageUri : string) : Z :=
  fold_left (fun acc char => acc + char) (charCodes imageUri) 0.

(** The body of the [for] loop at index [i]. *)
Definition resultAt (hash i : Z) : AIRecognitionResult :=
  let categoryIndex := Z.rem (hash + i * 7) (Z.of_nat (List.length allCategories)) in
  let confidence := sub (literal 95 2) (mul (of_Z i) (literal 15 2)) in
  {| ai_category := nth (Z.to_nat categoryIndex) allCategories top;
     ai_confidence := max (literal 5 1) confidence |}.

(** [for (let i = 0; i < numResults; i++) results.push(...)], with the
    number of iterations still to run as the structural argument. *)
Fixpoint pushResults (hash i : Z) (remaining : nat)
         (results : list AIRecognitionResult) : list AIRecognitionResult :=
  match remaining with
  | O => results
  | S remaining' =>
      pushResults hash (i + 1) remaining' (results ++ [resultAt hash i])%list
  end.

Definition byConfidence (a b : AIRecognitionResult) : number :=
  sub (ai_confidence b) (ai_confidence a).

Definition mockRecognitionMultiple (imageUri : string) : list AIRecognitionResult :=
  let hash := hashOf imageUri in
  let numResults := Z.rem hash 3 + 1 in
  let results := pushResults hash 0 (Z.to_nat numResults) [] in
  JsArray.sort byConfidence results.

(** The confidences the loop produces, as the decimal texts JavaScript
    prints for them. *)
Definition mockConfidences : list number :=
  [literal 95 2; literal 7999999999999999 16; literal 6499999999999999 16].

Section WithPlatform.

Context {World : Type} (P : Platform World).

Definition recognizeClothingCategories (imageUri : string)
  : Async World (list AIRecognitionResult) :=
  tryCatch
    (sleep P 1000 ;;; ret (mockRecognitionMultiple imageUri))
    (fun error => throw (Error "AI识别失败")).

Definition recognizeClothingCategory (imageUri : string)
  : Async World ClothingCategory :=
  results <- recognizeClothingCategories imageUri ;;
  ret (match results with
       | first :: _ => ai_category first
       | [] => top
       end).

End WithPlatform.

(** [mockRecognition]: the single-category guess. *)
Definition mockRecognition (imageUri : string) : ClothingCategory :=
  let categories := [top; bottom; dress; outerwear; shoes; accessories] in
  let hash := hashOf imageUri in
  let index := Z.rem hash (Z.of_nat (List.length categories)) in
  nth (Z.to_nat index) categories top.

(** [Object.entries(categoryKeywords)] of [mapAIResultToCategory], in
    the order the keys are written. *)
Definition categoryKeywords : list (ClothingCategory * list string) :=
  [ (top, ["shirt"; "t-shirt"; "blouse"; "top"; "sweater"; "jacket"]);
    (bottom, ["pants"; "trousers"; "jeans"; "shorts"; "skirt"]);
    (dress, ["dress"; "gown"; "frock"]);
    (outerwear, ["coat"; "jacket"; "blazer"; "cardigan"]);
    (shoes, ["shoe"; "boot"; "sneaker"; "sandal"; "heel"]);
    (accessories, ["bag"; "hat"; "scarf"; "belt"; "jewelry"; "watch"]) ].

(** The inner loop: the first category one of whose keywords occurs in
    the lower-cased label. *)
Definition categoryOfLabel (label : string) : option ClothingCategory :=
  let labelLower := toLowerCase label in
  match find (fun entry => existsb (fun keyword => includes labelLower keyword)
                                   (snd entry)) categoryKeywords with
  | Some (category, _) => Some category
  | None => None
  end.

(** The outer loop over the labels, with [top] when none matches. *)
Fixpoint firstCategory (labels : list string) : ClothingCategory :=
  match labels with
  | [] => top
  | label :: rest =>
      match categoryOfLabel label with
      | Some category => category
      | None => firstCategory rest
      end
  end.

(** [aiResult.labels || []]: an absent list of labels counts as empty. *)
Definition mapAIResultToCategory (labels : option (list string)) : ClothingCategory :=
  firstCategory (match labels with Some l => l | None => [] end).

(** The table of [suggestTags]; the texts are kept as their UTF-8
    bytes, none of which is a comma or stands as white space at an end. *)
Definition possibleTags : list (list string) :=
  [ ["休闲"; "棉质"; "夏季"];
    ["正式"; "商务"; "黑色"];
    ["运动"; "透气"; "春秋"];
    ["时尚"; "潮流"; "街头"];
    ["简约"; "基础款"; "百搭"] ].

Section Tags.

Context {World : Type} (P : Platform World).

Definition suggestTags (imageUri : string) : Async World (list string) :=
  tryCatch
    (sleep P 800 ;;;
     let hash := hashOf imageUri in
     let index := Z.rem hash (Z.of_nat (List.length possibleTags)) in
     ret (nth (Z.to_nat index) possibleTags []))
    (fun error => ret []).

End Tags.

End AIService.

(* ===================================================================== *)
(** * src/services/backgroundRemovalService.ts *)
(* ===================================================================== *)

Module BackgroundRemovalService.
Section WithPlatform.

Context {World : Type} (P : Platform World).

Definition removeBgPlaceholder : string := "YOUR_REMOVE_BG_API_KEY".

(** The promise around the [FileReader]: it resolves with the text
    after the first comma of the data URL. *)
Definition readBase64 (b : Blob) : Async World string :=
  fun w =>
    match readAsDataURL P b w with
    | (readerTimeout, w') => (Rejected (Error "FileReader timeout"), w')
    | (onerror, w') => (Rejected (Error "FileReader error"), w')
    | (onloadend None, w') => (Rejected (Error "Invalid FileReader result"), w')
    | (onloadend (Some result), w') =>
        if negb (truthy result) || negb (includes result ",")
        then (Rejected (Error "Invalid FileReader result"), w')
        else
          (* [result.split(',')[1]]; a text with a comma has this part *)
          match nth_error (split "," result) 1 with
          | Some base64 => (Resolved base64, w')
          | None => (Rejected (TypeError "undefined"), w')
          end
    end.

(** The body of the [try] block of [removeBackgroundWithRemoveBg]. *)
Definition removeBgRequest (API_KEY imageUri : string) : Async World string :=
  let timeout := 30000 in
  response <- (fun w =>
                 match fetchRemoveBg P API_KEY imageUri timeout w with
                 | (fetchSettled s, w') => (s, w')
                 | (timerFired, w') => (Rejected (Error "Request timeout"), w')
                 end) ;;
  if negb (ok response) then
    let errorMessage := "API调用失败: " ++ showZ (status response) in
    errorMessage' <-
      tryCatch
        (errorData <- json response ;;
         ret (match firstErrorTitle errorData with
              | Some title => if truthy title then title else errorMessage
              | None => errorMessage
              end))
        (fun _ => text response ;;; ret errorMessage) ;;
    throw (Error errorMessage')
  else
    blob <- blob response ;;
    if blob_size blob =? 0 then throw (Error "Received empty image data")
    else
      base64Data <- readBase64 blob ;;
      now <- (fun w => (Resolved (Date_now P w), w)) ;;
      let fileName := "bg_removed_" ++ showZ now ++ ".png" in
      let fileUri := documentDirectory P ++ fileName in
      writeAsStringAsync P fileUri base64Data ;;;
      fileInfo <- getInfoAsync P fileUri ;;
      if negb (exists_ fileInfo)
      then throw (Error "Failed to save processed image")
      else ret fileUri.

Definition removeBackgroundWithRemoveBg (imageUri : string) : Async World string :=
  let API_KEY := REMOVE_BG_API_KEY P in
  if negb (truthy API_KEY) || (API_KEY =? removeBgPlaceholder)%string
  then throw (Error "请在 src/config/api.ts 中配置 Remove.bg API Key")
  else
    tryCatch (removeBgRequest API_KEY imageUri)
      (fun error =>
         if (message error =? "Request timeout")%string
         then throw (Error "请求超时，请检查网络连接")
         else if includes (message error) "API" then throw error
         else throw (Error "背景移除失败，请稍后重试")).

Definition mockBackgroundRemoval (imageUri : string) : Async World string :=
  sleep P 2000 ;;; ret imageUri.

Definition removeBackground (imageUri : string) : Async World string :=
  tryCatch
    (if truthy (REMOVE_BG_API_KEY P)
        && negb (REMOVE_BG_API_KEY P =? removeBgPlaceholder)%string
     then removeBackgroundWithRemoveBg imageUri
     else mockBackgroundRemoval imageUri)
    (fun _ => throw (Error "背景移除失败")).


End WithPlatform.
End BackgroundRemovalService.

(* ===================================================================== *)
(** * src/services/clothingSegmentationService.ts *)
(* ===================================================================== *)

Module Box.
Record t : Type := { x : number; y : number; width : number; height : number }.
End Box.

Module Item.
(** [SegmentedClothingItem] *)
Record t : Type := {
  category : ClothingCategory;
  imageUri : string;
  boundingBox : Box.t;
  confidence : number;
}.
End Item.

Definition SegmentedClothingItem : Type := Item.t.

Module ClothingSegmentationService.

Definition CONFIDENCE_THRESHOLD : number := literal 3 1.

Definition excludeKeywords : list string :=
  ["person"; "people"; "human"; "man"; "woman"; "boy"; "girl";
   "face"; "head"; "body"; "hand"; "leg"; "arm"; "foot"].

(** [Object.entries(categoryMap)]: the keys in insertion order (none of
    them is an array index). *)
Definition categoryMap : list (string * ClothingCategory) :=
  [("shirt", top); ("top", top); ("t-shirt", top); ("blouse", top);
   ("sweater", top); ("tank top", top);
   ("pants", bottom); ("trousers", bottom); ("jeans", bottom);
   ("shorts", bottom); ("skirt", bottom);
   ("dress", dress); ("gown", dress);
   ("jacket", outerwear); ("coat", outerwear); ("blazer", outerwear);
   ("cardigan", outerwear);
   ("shoe", shoes); ("shoes", shoes); ("boot", shoes); ("sneaker", shoes);
   ("sandal", shoes); ("heel", shoes);
   ("hat", accessories); ("bag", accessories); ("scarf", accessories);
   ("belt", accessories); ("sunglasses", accessories); ("watch", accessories)].

Definition mapGoogleLabelToCategory (label : string) : option ClothingCategory :=
  let lowerLabel := toLowerCase label in
  if existsb (fun keyword => includes lowerLabel keyword) excludeKeywords
  then None
  else
    match find (fun entry => includes lowerLabel (fst entry)) categoryMap with
    | Some (_, category) => Some category
    | None => None
    end.

(** Lines 154-157 of [segmentWithGoogleVision]: the pixel rectangle of
    a normalized quadrilateral, from its first and third vertex. *)
Definition pixelBox (v0 v2 : Vertex) (imageWidth imageHeight : number) : Box.t :=
  {| Box.x := floor (mul (vx v0) imageWidth);
     Box.y := floor (mul (vy v0) imageHeight);
     Box.width := floor (mul (sub (vx v2) (vx v0)) imageWidth);
     Box.height := floor (mul (sub (vy v2) (vy v0)) imageHeight) |}.

(** Line 160: [width <= 0 || height <= 0]. *)
Definition invalidDimensions (box : Box.t) : bool :=
  le (Box.width box) pos_zero || le (Box.height box) pos_zero.

(** The coordinate mapper as the specification names it: the
    rectangle, or nothing when its dimensions are rejected. *)
Definition toPixelRect (v0 v2 : Vertex) (imageWidth imageHeight : number)
  : option Box.t :=
  let box := pixelBox v0 v2 imageWidth imageHeight in
  if invalidDimensions box then None else Some box.

(** The comparator of the sort at line 134: [b.score - a.score]. *)
Definition scoreOf (obj : LocalizedObject) : number :=
  match score obj with Some s => value s | None => NaN end.

Definition byScore (a b : LocalizedObject) : number :=
  sub (scoreOf b) (scoreOf a).

Definition visionPlaceholder : string := "YOUR_GOOGLE_CLOUD_VISION_API_KEY".

Definition noItemsDetected : JsError :=
  Error "未识别到服装物品，请尝试其他照片".

(** A localized object that passes the category mapper and the
    coordinate mapper: its label maps to [category] and its
    quadrilateral gives [box]. *)
Definition clothingCandidate (obj : LocalizedObject)
           (imageWidth imageHeight : number)
           (category : ClothingCategory) (box : Box.t) : Prop :=
  (exists label,
      name obj = Some label /\ mapGoogleLabelToCategory label = Some category)
  /\ (exists vertices v0 v2,
         normalizedVertices obj = Some vertices
         /\ nth_error vertices 0 = Some v0 /\ nth_error vertices 2 = Some v2
         /\ toPixelRect v0 v2 imageWidth imageHeight = Some box).

(** The item the loop pushes for an accepted object. *)
Definition itemOf (category : ClothingCategory) (uri : string) (box : Box.t)
           (objScore : number) : Item.t :=
  {| Item.category := category; Item.imageUri := uri;
     Item.boundingBox := box; Item.confidence := objScore |}.

(** The request of step 3. *)
Definition annotateUrl (API_KEY : string) : string :=
  "https://vision.googleapis.com/v1/images:annotate?key=" ++ API_KEY.

Definition annotateBody (base64 : string) : AnnotateRequest :=
  {| content := base64;
     features := [("OBJECT_LOCALIZATION", 15); ("LABEL_DETECTION", 20)] |}.

Definition sizeQuery : SaveOptions := {| format := JPEG; compress := None |}.

Section WithPlatform.

Context {World : Type} (P : Platform World).

Definition cropImageRegion (imageUri : string) (box : Box.t) : Async World string :=
  tryCatch
    (let region :=
       {| originX := max pos_zero (floor (Box.x box));
          originY := max pos_zero (floor (Box.y box));
          crop_width := max (of_Z 1) (floor (Box.width box));
          crop_height := max (of_Z 1) (floor (Box.height box)) |} in
     manipResult <- manipulateAsync P imageUri [crop region]
                      {| format := PNG; compress := Some (literal 9 1) |} ;;
     ret (result_uri manipResult))
    (fun error => throw error).

(** The body of the [for (const obj of sortedObjects)] loop: the items
    collected so far and the object at hand give the items after it. *)
Definition processObject (imageUri : string) (imageWidth imageHeight : number)
           (items : list Item.t) (obj : LocalizedObject)
  : Async World (list Item.t) :=
  match score obj with
  | None => throw (TypeError "Cannot read property 'toFixed' of undefined")
  | Some objScore =>
      if lt objScore CONFIDENCE_THRESHOLD then ret items
      else
        match name obj with
        | None => throw (TypeError "Cannot read property 'toLowerCase' of undefined")
        | Some objName =>
            match mapGoogleLabelToCategory objName with
            | None => ret items
            | Some category =>
                match normalizedVertices obj with
                | None => throw (TypeError "Cannot read property 'normalizedVertices' of undefined")
                | Some vertices =>
                    match nth_error vertices 0, nth_error vertices 2 with
                    | Some v0, Some v2 =>
                        let box := pixelBox v0 v2 imageWidth imageHeight in
                        if invalidDimensions box then ret items
                        else
                          tryCatch
                            (croppedUri <- cropImageRegion imageUri box ;;
                             transparentUri <-
                               tryCatch
                                 (BackgroundRemovalService.removeBackground P croppedUri)
                                 (fun bgError => ret croppedUri) ;;
                             ret (items ++ [ {| Item.category := category;
                                                Item.imageUri := transparentUri;
                                                Item.boundingBox := box;
                                                Item.confidence := value objScore |} ])%list)
                            (fun cropError => ret items)
                    | _, _ => throw (TypeError "Cannot read property 'x' of undefined")
                    end
                end
            end
        end
  end.

Fixpoint forOf (imageUri : string) (imageWidth imageHeight : number)
         (sortedObjects : list LocalizedObject) (items : list Item.t)
  : Async World (list Item.t) :=
  match sortedObjects with
  | [] => ret items
  | obj :: rest =>
      items' <- processObject imageUri imageWidth imageHeight items obj ;;
      forOf imageUri imageWidth imageHeight rest items'
  end.

(** Steps 1 to 3 of [segmentWithGoogleVision] and the reading of the
    answer: the size of the image and [result.responses[0]]. *)
Definition annotate (API_KEY imageUri : string)
  : Async World (number * number * AnnotateImageResponse) :=
  imageInfo <- manipulateAsync P imageUri [] sizeQuery ;;
  base64 <- readAsStringAsync P imageUri ;;
  response <- fetchAnnotate P (annotateUrl API_KEY) (annotateBody base64) ;;
  if negb (ok response) then
    errorText <- text response ;;
    throw (Error ("API调用失败: " ++ showZ (status response) ++ " - " ++ errorText))
  else
    result <- json response ;;
    match responses result with
    | Some (annotations :: _) =>
        ret (result_width imageInfo, result_height imageInfo, annotations)
    | Some [] => throw (TypeError "Cannot read property 'localizedObjectAnnotations' of undefined")
    | None => throw (TypeError "Cannot read property '0' of undefined")
    end.

(** Step 4: the items of the localized objects, best score first. *)
Definition collectItems (imageUri : string) (imageWidth imageHeight : number)
           (annotations : AnnotateImageResponse) : Async World (list Item.t) :=
  match localizedObjectAnnotations annotations with
  | Some objects =>
      forOf imageUri imageWidth imageHeight (JsArray.sort byScore objects) []
  | None => ret []
  end.

Definition segmentWithGoogleVision (imageUri : string) : Async World (list Item.t) :=
  let API_KEY := GOOGLE_VISION_API_KEY P in
  if negb (truthy API_KEY) || (API_KEY =? visionPlaceholder)%string
  then throw (Error "Google Cloud Vision API Key not configured")
  else
    tryCatch
      (request <- annotate API_KEY imageUri ;;
       let '(imageWidth, imageHeight, annotations) := request in
       items <- collectItems imageUri imageWidth imageHeight annotations ;;
       if (List.length items =? 0)%nat then throw noItemsDetected
       else ret items)
      (fun error => throw error).

Definition mockItems (imageUri : string) : list Item.t :=
  [ {| Item.category := top;
       Item.imageUri := imageUri;
       Item.boundingBox := {| Box.x := of_Z 100; Box.y := of_Z 50;
                              Box.width := of_Z 200; Box.height := of_Z 150 |};
       Item.confidence := literal 95 2 |};
    {| Item.category := bottom;
       Item.imageUri := imageUri;
       Item.boundingBox := {| Box.x := of_Z 100; Box.y := of_Z 200;
                              Box.width := of_Z 200; Box.height := of_Z 200 |};
       Item.confidence := literal 92 2 |} ].

Definition mockSegmentation (imageUri : string) : Async World (list Item.t) :=
  sleep P 2000 ;;; ret (mockItems imageUri).

Definition segmentClothing (imageUri : string) : Async World (list Item.t) :=
  tryCatch
    (tryCatch (segmentWithGoogleVision imageUri)
              (fun visionError => mockSegmentation imageUri))
    (fun error => throw (Error "服装分割失败")).

(** The key of the recognition service is configured. *)
Definition configured : Prop :=
  truthy (GOOGLE_VISION_API_KEY P) = true
  /\ GOOGLE_VISION_API_KEY P <> visionPlaceholder.

(** The request reached the service and [response] came back. *)
Definition answered (imageUri : string) (w : World)
           (response : Response World VisionResult) (w' : World) : Prop :=
  configured
  /\ exists imageInfo w1 base64 w2,
       manipulateAsync P imageUri [] sizeQuery w = (Resolved imageInfo, w1)
       /\ readAsStringAsync P imageUri w1 = (Resolved base64, w2)
       /\ fetchAnnotate P (annotateUrl (GOOGLE_VISION_API_KEY P))
                        (annotateBody base64) w2
          = (Resolved response, w').

(** The ways the real path fails before it has any detection to look
    at, each with the state of the world it leaves. *)
Inductive realPathFailure (imageUri : string) (w : World) : World -> Prop :=
  | missingCredential :
      GOOGLE_VISION_API_KEY P = "" \/ GOOGLE_VISION_API_KEY P = visionPlaceholder ->
      realPathFailure imageUri w w
  | networkFailure imageInfo w1 base64 w2 e w3 :
      configured ->
      manipulateAsync P imageUri [] sizeQuery w = (Resolved imageInfo, w1) ->
      readAsStringAsync P imageUri w1 = (Resolved base64, w2) ->
      fetchAnnotate P (annotateUrl (GOOGLE_VISION_API_KEY P))
                    (annotateBody base64) w2 = (Rejected e, w3) ->
      realPathFailure imageUri w w3
  | nonOkResponse response w3 errorText w4 :
      answered imageUri w response w3 ->
      ok response = false ->
      text response w3 = (errorText, w4) ->
      realPathFailure imageUri w w4
  | malformedPayload response w3 e w4 :
      answered imageUri w response w3 ->
      ok response = true ->
      json response w3 = (Rejected e, w4) ->
      realPathFailure imageUri w w4
  | missingResponses response w3 result w4 :
      answered imageUri w response w3 ->
      ok response = true ->
      json response w3 = (Resolved result, w4) ->
      responses result = None \/ responses result = Some [] ->
      realPathFailure imageUri w w4.

(** [analyzeTransparentImage]: the two fixed regions. *)
Definition analyzeTransparentImage (imageUri : string)
  : Async World (list (ClothingCategory * Box.t * number)) :=
  ret [ (top, {| Box.x := of_Z 0; Box.y := of_Z 0;
                 Box.width := of_Z 100; Box.height := of_Z 40 |}, literal 9 1);
        (bottom, {| Box.x := of_Z 0; Box.y := of_Z 40;
                    Box.width := of_Z 100; Box.height := of_Z 60 |}, literal 85 2) ].

(** [cropImage]: the placeholder that returns its input. *)
Definition cropImage (imageUri : string) (box : Box.t) : Async World string :=
  ret imageUri.

Fixpoint cropSegments (transparentUri : string)
         (segments : list (ClothingCategory * Box.t * number))
         (items : list Item.t) : Async World (list Item.t) :=
  match segments with
  | [] => ret items
  | (segmentCategory, segmentBox, segmentConfidence) :: rest =>
      croppedUri <- cropImage transparentUri segmentBox ;;
      cropSegments transparentUri rest
        (items ++ [ {| Item.category := segmentCategory;
                       Item.imageUri := croppedUri;
                       Item.boundingBox := segmentBox;
                       Item.confidence := segmentConfidence |} ])%list
  end.

Definition segmentWithRemoveBg (imageUri : string) : Async World (list Item.t) :=
  transparentUri <- BackgroundRemovalService.removeBackground P imageUri ;;
  segments <- analyzeTransparentImage transparentUri ;;
  cropSegments transparentUri segments [].

End WithPlatform.
(** The items that a run over [objects] pushes: every item stems from
    one object that passed the filters, and the items keep the order of
    their objects. *)
Inductive pickedFrom (imageWidth imageHeight : number)
  : list Item.t -> list LocalizedObject -> Prop :=
  | pickedNone : pickedFrom imageWidth imageHeight [] []
  | pickedSkip obj objects items :
      pickedFrom imageWidth imageHeight items objects ->
      pickedFrom imageWidth imageHeight items (obj :: objects)
  | pickedTake item obj objects items (s : JsonNumber) :
      score obj = Some s ->
      lt s CONFIDENCE_THRESHOLD = false ->
      Item.confidence item = s ->
      clothingCandidate obj imageWidth imageHeight
                        (Item.category item) (Item.boundingBox item) ->
      pickedFrom imageWidth imageHeight items objects ->
      pickedFrom imageWidth imageHeight (item :: items) (obj :: objects).

End ClothingSegmentationService.

(* ===================================================================== *)
(** * src/screens/UploadScreen.tsx: what it does with the results *)
(* ===================================================================== *)

Module UploadScreen.

(** [Math.round(result.confidence * 100)], the number before the
    percent sign of a suggestion and of a segmented item. *)
Definition percent (confidence : number) : number :=
  round (mul confidence (of_Z 100)).

(** [suggestedTags.join(',')], the text [handleAIRecognition] puts in
    the tag field. *)
Definition tagsField (suggestedTags : list JsText.text) : JsText.text :=
  JsText.join [JsText.comma] suggestedTags.

(** [tags.split(',').map(t => t.trim()).filter(t => t)], the tags
    [handleSave] and [handleSaveSegmentedItems] store. *)
Definition parseTags (tags : JsText.text) : list JsText.text :=
  filter (fun t => negb (JsText.isEmpty t))
         (map JsText.trim (JsText.split JsText.comma tags)).

End UploadScreen.

(* ===================================================================== *)
(** * A device to run the services on *)
(* ===================================================================== *)

Module Device.

(** The world of this device is its clock, in milliseconds. *)
Definition World : Type := Z.

Definition outfit : string := "file:///photos/outfit.jpg".
Definition cropped : string := "file:///cache/crop.png".

Definition respond {J : Type} (isOk : bool) (code : Z) (body : Async World J)
           (data : Blob) : Response World J :=
  {| ok := isOk; status := code; text := ret "body"; json := body; blob := ret data |}.


(** A device with both keys given, an image of 1000 x 1000 pixels, an
    image manipulator and a file system that work, and the answers of
    the two remote services, of the file reader and of [getInfoAsync]
    as parameters. *)
Definition device (visionKey removeBgKey : string)
           (vision : Async World (Response World VisionResult))
           (matting : Raced (Response World RemoveBgErrorData))
           (reader : FileReaderOutcome) (info : FileInfo) : Platform World :=
  {| GOOGLE_VISION_API_KEY := visionKey;
     REMOVE_BG_API_KEY := removeBgKey;
     documentDirectory := "file:///documents/";
     manipulateAsync := fun uri actions _ =>
       match actions with
       | [] => ret {| result_uri := uri;
                      result_width := of_Z 1000; result_height := of_Z 1000 |}
       | _ => ret {| result_uri := cropped;
                     result_width := of_Z 1; result_height := of_Z 1 |}
       end;
     readAsStringAsync := fun _ => ret "aGVsbG8=";
     writeAsStringAsync := fun _ _ => ret tt;
     getInfoAsync := fun _ => ret info;
     fetchAnnotate := fun _ _ => vision;
     fetchRemoveBg := fun _ _ _ w => (matting, w);
     readAsDataURL := fun _ w => (reader, w);
     setTimeout := fun ms w => w + ms;
     Date_now := fun w => w |}.

Definition jsonNumber (m : Z) (k : nat)
           (H : is_nan (literal m k) = false) : JsonNumber :=
  {| value := literal m k; value_not_nan := H |}.

Definition vertex (xm ym : Z) : Vertex :=
  {| vx := literal xm 1; vy := literal ym 1 |}.

(** The quadrilateral of the service: top-left, top-right, bottom-right,
    bottom-left, in tenths. *)
Definition quad (x0 y0 x2 y2 : Z) : list Vertex :=
  [vertex x0 y0; vertex x2 y0; vertex x2 y2; vertex x0 y2].

Definition localized (label : string) (s : JsonNumber) (q : list Vertex)
  : LocalizedObject :=
  {| name := Some label; score := Some s; normalizedVertices := Some q |}.

Definition answer (objects : list LocalizedObject)
  : Async World (Response World VisionResult) :=
  ret (respond true 200
         (ret {| responses :=
                   Some [ {| localizedObjectAnnotations := Some objects |} ] |})
         {| blob_size := 0 |}).

Definition written : FileInfo := {| exists_ := true; info_size := 5 |}.

Definition personAndDress : list LocalizedObject :=
  [ localized "Red dress" (jsonNumber 8 1 eq_refl) (quad 1 2 6 7);
    localized "Person" (jsonNumber 9 1 eq_refl) (quad 0 0 10 10) ].

Definition personAndSky : list LocalizedObject :=
  [ localized "Person" (jsonNumber 9 1 eq_refl) (quad 0 0 10 10);
    localized "Sky" (jsonNumber 7 1 eq_refl) (quad 0 0 10 3) ].

(** The matting service does not answer within thirty seconds. *)
Definition mattingTimesOut (objects : list LocalizedObject) : Platform World :=
  device "vision-key" "removebg-key" (answer objects) timerFired onerror written.

(** The matting service answers with an image of five bytes. *)
Definition mattingWorks (objects : list LocalizedObject) (info : FileInfo)
  : Platform World :=
  device "vision-key" "removebg-key" (answer objects)
         (fetchSettled (Resolved (respond true 200 (throw (Error "not JSON"))
                                          {| blob_size := 5 |})))
         (onloadend (Some "data:image/png;base64,aGVsbG8=")) info.

(** The device [P] with an image manipulator that refuses every crop. *)
Definition cropFails (P : Platform World) : Platform World :=
  {| GOOGLE_VISION_API_KEY := GOOGLE_VISION_API_KEY P;
     REMOVE_BG_API_KEY := REMOVE_BG_API_KEY P;
     documentDirectory := documentDirectory P;
     manipulateAsync := fun uri actions options =>
       match actions with
       | [] => manipulateAsync P uri actions options
       | _ => throw (Error "Invalid crop options")
       end;
     readAsStringAsync := readAsStringAsync P;
     writeAsStringAsync := writeAsStringAsync P;
     getInfoAsync := getInfoAsync P;
     fetchAnnotate := fetchAnnotate P;
     fetchRemoveBg := fetchRemoveBg P;
     readAsDataURL := readAsDataURL P;
     setTimeout := setTimeout P;
     Date_now := Date_now P |}.

(** A detection whose score the payload lacks. *)
Definition unscored (label : string) (q : list Vertex) : LocalizedObject :=
  {| name := Some label; score := None; normalizedVertices := Some q |}.

End Device.


(* ===================================================================== *)
(** * Checks of the number model *)
(* ===================================================================== *)

(** The literals are the binary64 values of JavaScript:
    0.3 is 0x1.3333333333333p-2 and 0.95 is 0x1.e666666666666p-1. *)
Example literal_values :
  literal 3 1 = S754_finite false 0x13333333333333 (-54)
  /\ literal 95 2 = S754_finite false 0x1e666666666666 (-53)
  /\ literal 5 1 = S754_finite false (2 ^ 52) (-53).
Proof. repeat split; vm_compute; reflexivity. Qed.

(** 0.7 - 0.2 is one unit in the last place below 0.5, and a thousand
    times it is below 500. *)
Example difference_rounds_down :
  sub (literal 7 1) (literal 2 1) = S754_finite false (2 ^ 53 - 1) (-54)
  /\ lt (mul (sub (literal 7 1) (literal 2 1)) (of_Z 1000)) (of_Z 500) = true
  /\ sub (literal 6 1) (literal 1 1) = literal 5 1.
Proof. repeat split; vm_compute; reflexivity. Qed.

Example floor_values :
  floor (literal 25 1) = of_Z 2
  /\ floor (literal (-25) 1) = of_Z (-3)
  /\ floor (literal 5 1) = pos_zero
  /\ floor (literal (-5) 1) = of_Z (-1)
  /\ floor (of_Z 7) = of_Z 7
  /\ floor NaN = NaN
  /\ to_Z (floor (literal 4999 1)) = Some 499.
Proof. repeat split; vm_compute; reflexivity. Qed.

Example max_values :
  max (literal 5 1) (literal 95 2) = literal 95 2
  /\ max (literal 5 1) (literal 3 1) = literal 5 1
  /\ max (literal 5 1) NaN = NaN
  /\ max (S754_zero true) pos_zero = pos_zero.
Proof. repeat split; vm_compute; reflexivity. Qed.

(** The code units of literals: ASCII as it is, a Chinese character of
    three bytes as one code unit, the ideographic space as U+3000, and
    a character outside the basic plane as a surrogate pair. *)
Example ofUtf8_values :
  JsText.ofUtf8 "a,b" = [97; 44; 98]%N
  /\ JsText.ofUtf8 "休闲" = [0x4F11; 0x95F2]%N
  /\ JsText.ofUtf8 "睡眠" = [0x7761; 0x7720]%N
  /\ JsText.ofUtf8 "　" = [0x3000]%N
  /\ JsText.ofUtf8 "é😀" = [0xE9; 0xD83D; 0xDE00]%N
  /\ JsText.isWhiteSpace 0x3000 = true
  /\ JsText.isWhiteSpace 0x7720 = false.
Proof. repeat split; vm_compute; reflexivity. Qed.

(* ===================================================================== *)
(** * Properties of the string and array operations *)
(* ===================================================================== *)

Section ArrayFacts.

Context {A : Type} (compareFn : A -> A -> number).

Lemma insert_permutation (a : A) (l : list A) :
  Permutation (JsArray.insert compareFn a l) (a :: l).
Proof.
  induction l as [|b l IH]; cbn [JsArray.insert]; [reflexivity|].
  destruct (gt (compareFn a b) pos_zero); [|reflexivity].
  rewrite IH. apply perm_swap.
Qed.

(** Sorting moves the elements and neither drops nor adds one. *)
Lemma sort_permutation (l : list A) : Permutation (JsArray.sort compareFn l) l.
Proof.
  induction l as [|a l IH]; cbn [JsArray.sort]; [reflexivity|].
  now rewrite insert_permutation, IH.
Qed.

End ArrayFacts.

Section StringFacts.

Lemma prefix_append (kw post : string) : prefix kw (kw ++ post) = true.
Proof.
  induction kw as [|c kw IH]; simpl.
  - now destruct post.
  - destruct (ascii_dec c c) as [_|ne]; [exact IH | now elim ne].
Qed.

Lemma prefix_inv (kw s : string) :
  prefix kw s = true -> exists post, s = kw ++ post.
Proof.
  revert s; induction kw as [|c kw IH]; intros s H.
  - now exists s.
  - destruct s as [|d s]; simpl in H; [discriminate|].
    destruct (ascii_dec c d) as [->|]; [|discriminate].
    destruct (IH _ H) as [post ->].
    now exists post.
Qed.

(** [includes] finds exactly the contiguous occurrences. *)
Lemma includes_occurs (s kw : string) :
  includes s kw = true <-> exists pre post, s = pre ++ kw ++ post.
Proof.
  split.
  - induction s as [|c s IH]; intros H; cbn [includes] in H.
    + apply orb_true_iff in H as [H|H]; [|discriminate].
      destruct (prefix_inv _ _ H) as [post ->].
      now exists EmptyString, post.
    + apply orb_true_iff in H as [H|H].
      * destruct (prefix_inv _ _ H) as [post ->].
        now exists EmptyString, post.
      * destruct (IH H) as (pre & post & ->).
        now exists (String c pre), post.
  - intros (pre & post & ->).
    induction pre as [|c pre IH].
    + change ("" ++ kw ++ post) with (kw ++ post).
      destruct (kw ++ post) eqn:E; cbn [includes];
        rewrite <- E, prefix_append; reflexivity.
    + change (String c pre ++ kw ++ post) with (String c (pre ++ kw ++ post)).
      cbn [includes]. rewrite IH. apply orb_true_r.
Qed.

Lemma split_nonempty (sep : ascii) (s : string) :
  exists head tail, split sep s = head :: tail.
Proof.
  destruct s as [|c s]; cbn [split]; [now eexists; eexists|].
  destruct (Ascii.eqb c sep); [now eexists; eexists|].
  destruct (split sep s); now eexists; eexists.
Qed.

(** A text with a comma has a part after its first comma. *)
Lemma split_second_part (s : string) :
  includes s "," = true -> exists part, nth_error (split "," s) 1 = Some part.
Proof.
  induction s as [|c s IH]; cbn [includes]; intros H.
  - discriminate.
  - cbn [split]. destruct (Ascii.eqb c ",") eqn:E.
    + destruct (split_nonempty "," s) as (head & tail & ->). now exists head.
    + assert (Hs : includes s "," = true).
      { apply orb_true_iff in H as [H|H]; [|exact H].
        cbn [prefix] in H. apply Ascii.eqb_neq in E.
        destruct (ascii_dec "," c) as [Heq|Hne];
          [symmetry in Heq; contradiction | discriminate H]. }
      destruct (IH Hs) as [part Hpart].
      destruct (split "," s) as [|head tail]; [discriminate|].
      exists part. exact Hpart.
Qed.

End StringFacts.

(* ===================================================================== *)
(** * The category mapper *)
(* ===================================================================== *)

Import ClothingSegmentationService.

Lemma excluded_label_is_null (label keyword : string) :
  In keyword excludeKeywords ->
  includes (toLowerCase label) keyword = true ->
  mapGoogleLabelToCategory label = None.
Proof.
  intros Hin Hinc. unfold mapGoogleLabelToCategory.
  replace (existsb _ excludeKeywords) with true; [reflexivity|].
  symmetry. apply existsb_exists. now exists keyword.
Qed.

(** C3. A label whose lower-cased form contains one of the fourteen
    person and body-part texts maps to null, whatever clothing keyword
    it also contains; the label "Person wearing red shirt" maps to null
    although its lower-cased form contains "shirt", which alone would
    give the category top. *)
Theorem C3_exclusion_wins :
  (forall label keyword pre post,
      In keyword ["person"; "people"; "human"; "man"; "woman"; "boy"; "girl";
                  "face"; "head"; "body"; "hand"; "leg"; "arm"; "foot"] ->
      toLowerCase label = pre ++ keyword ++ post ->
      mapGoogleLabelToCategory label = None)
  /\ mapGoogleLabelToCategory "Person wearing red shirt" = None
  /\ includes (toLowerCase "Person wearing red shirt") "shirt" = true
  /\ mapGoogleLabelToCategory "Red shirt" = Some top.
Proof.
  split; [|repeat split; reflexivity].
  intros label keyword pre post Hin Hlow.
  apply (excluded_label_is_null label keyword Hin).
  apply includes_occurs. now exists pre, post.
Qed.

Lemma C3_exclusion_wins_witness :
  In "man" ["person"; "people"; "human"; "man"; "woman"; "boy"; "girl";
            "face"; "head"; "body"; "hand"; "leg"; "arm"; "foot"]
  /\ toLowerCase "Woman in blue jeans" = "wo" ++ "man" ++ " in blue jeans"
  /\ mapGoogleLabelToCategory "Woman in blue jeans" = None.
Proof.
  assert (Hin : In "man" ["person"; "people"; "human"; "man"; "woman"; "boy";
                          "girl"; "face"; "head"; "body"; "hand"; "leg"; "arm";
                          "foot"]) by (simpl; tauto).
  assert (Hlow : toLowerCase "Woman in blue jeans"
                 = "wo" ++ "man" ++ " in blue jeans") by reflexivity.
  split; [exact Hin | split; [exact Hlow|]].
  exact (proj1 C3_exclusion_wins "Woman in blue jeans" "man" "wo"
               " in blue jeans" Hin Hlow).
Defined.

(* ===================================================================== *)
(** * The mock recognition *)
(* ===================================================================== *)

Import AIService.

Section MockRecognition.

Lemma charCodes_nonneg (s : string) : Forall (fun c => 0 <= c) (charCodes s).
Proof.
  unfold charCodes. apply Forall_forall. intros c Hc.
  apply in_map_iff in Hc as (a & <- & _). apply N2Z.is_nonneg.
Qed.

Lemma fold_sum_shift (l : list Z) (a : Z) :
  fold_left (fun acc char => acc + char) l a
  = a + fold_left (fun acc char => acc + char) l 0.
Proof.
  revert a; induction l as [|c l IH]; intros a; simpl; [lia|].
  rewrite (IH (a + c)), (IH c). lia.
Qed.

Lemma hashOf_empty : hashOf "" = 0.
Proof. reflexivity. Qed.

Lemma hashOf_String (c : ascii) (s : string) :
  hashOf (String c s) = Z.of_N (N_of_ascii c) + hashOf s.
Proof.
  unfold hashOf, charCodes. cbn [list_ascii_of_string map fold_left].
  now rewrite fold_sum_shift.
Qed.

Lemma hashOf_nonneg (s : string) : 0 <= hashOf s.
Proof.
  induction s as [|c s IH]; [now rewrite hashOf_empty|].
  rewrite hashOf_String. pose proof (N2Z.is_nonneg (N_of_ascii c)). lia.
Qed.

(** The walk through the categories: a step of 7 is a step of 1 around
    the six categories. *)
Lemma categoryIndex_walk (hash i : Z) :
  0 <= hash -> 0 <= i ->
  Z.rem (hash + i * 7) (Z.of_nat (List.length allCategories)) = (hash + i) mod 6.
Proof.
  intros Hh Hi. cbn [allCategories List.length Z.of_nat Pos.of_succ_nat Pos.succ].
  rewrite Z.rem_mod_nonneg by lia.
  replace (hash + i * 7) with (hash + i + i * 6) by lia.
  apply Z_mod_plus_full.
Qed.

Lemma resultAt_category (hash i : Z) :
  0 <= hash -> 0 <= i ->
  ai_category (resultAt hash i)
  = nth (Z.to_nat ((hash + i) mod 6)) allCategories top.
Proof.
  intros Hh Hi. unfold resultAt. cbn [ai_category].
  now rewrite categoryIndex_walk.
Qed.

Lemma resultAt_confidence (hash : Z) (i : nat) :
  (i < 3)%nat ->
  ai_confidence (resultAt hash (Z.of_nat i)) = nth i mockConfidences NaN.
Proof.
  intros Hi. unfold resultAt. cbn [ai_confidence].
  destruct i as [|[|[|i]]]; [vm_compute; reflexivity ..| lia].
Qed.

(** Sorting by descending confidence leaves the pushed results where
    they are: the loop pushes them in that order already. *)
Lemma sort_pushed (r0 r1 r2 : AIRecognitionResult) :
  ai_confidence r0 = nth 0 mockConfidences NaN ->
  ai_confidence r1 = nth 1 mockConfidences NaN ->
  ai_confidence r2 = nth 2 mockConfidences NaN ->
  JsArray.sort byConfidence [r0] = [r0]
  /\ JsArray.sort byConfidence [r0; r1] = [r0; r1]
  /\ JsArray.sort byConfidence [r0; r1; r2] = [r0; r1; r2].
Proof.
  intros H0 H1 H2.
  assert (G10 : gt (byConfidence r0 r1) pos_zero = false)
    by (unfold byConfidence; rewrite H0, H1; vm_compute; reflexivity).
  assert (G21 : gt (byConfidence r1 r2) pos_zero = false)
    by (unfold byConfidence; rewrite H1, H2; vm_compute; reflexivity).
  cbn [JsArray.sort JsArray.insert]. rewrite G21.
  cbn [JsArray.insert]. rewrite G10.
  repeat split.
Qed.

Lemma mock_unfolded (imageUri : string) :
  mockRecognitionMultiple imageUri
  = map (fun i => resultAt (hashOf imageUri) (Z.of_nat i))
        (seq 0 (Z.to_nat (hashOf imageUri mod 3 + 1))).
Proof.
  unfold mockRecognitionMultiple.
  pose proof (hashOf_nonneg imageUri) as Hh.
  rewrite Z.rem_mod_nonneg by lia.
  set (hash := hashOf imageUri) in *.
  destruct (sort_pushed (resultAt hash 0) (resultAt hash 1) (resultAt hash 2))
    as (S1 & S2 & S3);
    [exact (resultAt_confidence hash 0 ltac:(lia))
    |exact (resultAt_confidence hash 1 ltac:(lia))
    |exact (resultAt_confidence hash 2 ltac:(lia))|].
  assert (Hm : hash mod 3 = 0 \/ hash mod 3 = 1 \/ hash mod 3 = 2)
    by (pose proof (Z.mod_pos_bound hash 3); lia).
  destruct Hm as [-> | [-> | ->]]; cbn; assumption.
Qed.

End MockRecognition.

Lemma nth_error_map_seq {A : Type} (f : nat -> A) (n i : nat) (a : A) :
  nth_error (map f (seq 0 n)) i = Some a -> (i < n)%nat /\ a = f i.
Proof.
  intros H.
  assert (Hi : (i < n)%nat).
  { assert (Hlen : (i < List.length (map f (seq 0 n)))%nat)
      by (apply nth_error_Some; congruence).
    now rewrite length_map, length_seq in Hlen. }
  split; [exact Hi|].
  rewrite nth_error_map, nth_error_seq in H.
  apply Nat.ltb_lt in Hi. rewrite Hi in H. cbn in H. congruence.
Qed.

(** C7. The mock recognition is a function of the image reference
    alone: on any two devices, in any two states of the world (so also
    for two calls one after the other), [recognizeClothingCategories]
    resolves with the same list, entry for entry: as many entries, the
    same categories and the same confidences in the same order. *)
Theorem C7_mock_recognition_deterministic :
  forall (World1 World2 : Type) (P1 : Platform World1) (P2 : Platform World2)
         (imageUri : string) (w1 : World1) (w2 : World2),
    (exists results,
        fst (recognizeClothingCategories P1 imageUri w1) = Resolved results
        /\ fst (recognizeClothingCategories P2 imageUri w2) = Resolved results
        /\ results = mockRecognitionMultiple imageUri)
    /\ (let first := recognizeClothingCategories P1 imageUri w1 in
        let second := recognizeClothingCategories P1 imageUri (snd first) in
        fst first = fst second).
Proof.
  intros. split.
  - exists (mockRecognitionMultiple imageUri). repeat split.
  - reflexivity.
Qed.

(** The mock recognition on every image reference, as the code computes
    it.  The hash is the sum of the character codes; the number of
    results is (hash mod 3) + 1, between 1 and 3; the i-th result has
    the confidence [Math.max(0.5, 0.95 - (i * 0.15))], which the
    arithmetic of JavaScript numbers makes 0.95, 0.7999999999999999 and
    0.6499999999999999; its category is the entry (hash + i) mod 6 of
    the list of six categories; and the confidences strictly descend
    along the returned list. *)
Theorem C8_mock_recognition_formula (imageUri : string) :
  let hash := hashOf imageUri in
  let numResults := hash mod 3 + 1 in
  let results := mockRecognitionMultiple imageUri in
  (hashOf "" = 0
   /\ forall c s, hashOf (String c s) = Z.of_N (N_of_ascii c) + hashOf s)
  /\ 1 <= numResults <= 3
  /\ List.length results = Z.to_nat numResults
  /\ (forall i r,
         nth_error results i = Some r ->
         ai_confidence r
         = max (literal 5 1)
               (sub (literal 95 2) (mul (of_Z (Z.of_nat i)) (literal 15 2)))
         /\ ai_confidence r
            = nth i [literal 95 2; literal 7999999999999999 16;
                     literal 6499999999999999 16] NaN
         /\ nth_error [top; bottom; dress; outerwear; shoes; accessories]
                      (Z.to_nat ((hash + Z.of_nat i) mod 6))
            = Some (ai_category r))
  /\ (forall i j a b,
         (i < j)%nat ->
         nth_error results i = Some a -> nth_error results j = Some b ->
         gt (ai_confidence a) (ai_confidence b) = true).
Proof.
  intros hash numResults results.
  pose proof (hashOf_nonneg imageUri) as Hh. fold hash in Hh.
  pose proof (Z.mod_pos_bound hash 3 ltac:(lia)) as Hm.
  assert (Hn : (Z.to_nat numResults <= 3)%nat) by (unfold numResults; lia).
  assert (Hat : forall i r, nth_error results i = Some r ->
                            (i < 3)%nat /\ r = resultAt hash (Z.of_nat i)).
  { intros i r Hr. unfold results in Hr. rewrite mock_unfolded in Hr.
    apply nth_error_map_seq in Hr as [Hi ->]. fold hash numResults in Hi.
    split; [lia | reflexivity]. }
  split; [split; [exact hashOf_empty | exact hashOf_String]|].
  split; [unfold numResults; lia|].
  split.
  { unfold results. rewrite mock_unfolded, length_map, length_seq. reflexivity. }
  split.
  - intros i r Hr. destruct (Hat i r Hr) as [Hi ->].
    split; [reflexivity|].
    split; [exact (resultAt_confidence hash i Hi)|].
    rewrite resultAt_category by lia.
    pose proof (Z.mod_pos_bound (hash + Z.of_nat i) 6 ltac:(lia)) as Hk.
    apply nth_error_nth'. unfold allCategories. cbn [List.length]. lia.
  - intros i j a b Hij Ha Hb.
    destruct (Hat i a Ha) as [Hi ->]. destruct (Hat j b Hb) as [Hj ->].
    rewrite (resultAt_confidence hash i Hi), (resultAt_confidence hash j Hj).
    destruct i as [|[|[|i]]]; destruct j as [|[|[|j]]]; try lia;
      vm_compute; reflexivity.
Qed.


Lemma C8_mock_recognition_formula_witness :
  nth_error (mockRecognitionMultiple "b") 0
  = Some {| ai_category := dress; ai_confidence := literal 95 2 |}
  /\ nth_error (mockRecognitionMultiple "b") 2
     = Some {| ai_category := shoes; ai_confidence := literal 6499999999999999 16 |}
  /\ nth_error [top; bottom; dress; outerwear; shoes; accessories]
               (Z.to_nat ((hashOf "b" + 2) mod 6)) = Some shoes
  /\ gt (literal 95 2) (literal 6499999999999999 16) = true.
Proof.
  assert (H0 : nth_error (mockRecognitionMultiple "b") 0
               = Some {| ai_category := dress; ai_confidence := literal 95 2 |})
    by (vm_compute; reflexivity).
  assert (H2 : nth_error (mockRecognitionMultiple "b") 2
               = Some {| ai_category := shoes;
                         ai_confidence := literal 6499999999999999 16 |})
    by (vm_compute; reflexivity).
  destruct (C8_mock_recognition_formula "b") as (_ & _ & _ & Hat & Hdesc).
  split; [exact H0 | split; [exact H2 | split]].
  - exact (proj2 (proj2 (Hat 2%nat _ H2))).
  - exact (Hdesc 0%nat 2%nat _ _ ltac:(lia) H0 H2).
Defined.

(* ===================================================================== *)
(** * Properties of number comparison *)
(* ===================================================================== *)

Section NumberFacts.

Lemma SFcompare_swap (a b : number) :
  SFcompare b a = option_map CompOpp (SFcompare a b).
Proof.
  destruct a as [sa|sa| |sa ma ea], b as [sb|sb| |sb mb eb];
    try reflexivity; try (destruct sa; reflexivity);
    try (destruct sb; reflexivity); try (destruct sa, sb; reflexivity).
  cbn [SFcompare option_map].
  destruct sa, sb; try reflexivity;
    rewrite (Z.compare_antisym ea eb);
    destruct (ea ?= eb); cbn [CompOpp]; try reflexivity;
    now rewrite (ZC4 mb ma).
Qed.

Lemma SFcompare_defined (a b : number) :
  is_nan a = false -> is_nan b = false -> exists c, SFcompare a b = Some c.
Proof.
  destruct a, b; cbn [is_nan]; intros; try discriminate;
    cbn [SFcompare]; eexists; reflexivity.
Qed.

(** Of two numbers that are not NaN, the first is below the second or
    at least as large. *)
Lemma not_lt_ge (a b : number) :
  is_nan a = false -> is_nan b = false -> lt a b = false -> ge a b = true.
Proof.
  intros Ha Hb Hlt. unfold ge, lt, SFleb, SFltb in *.
  rewrite (SFcompare_swap a b).
  destruct (SFcompare_defined a b Ha Hb) as [c Hc]. rewrite Hc in *.
  destruct c; [reflexivity | discriminate | reflexivity].
Qed.

End NumberFacts.

(* ===================================================================== *)
(** * Running asynchronous code *)
(* ===================================================================== *)

Section AsyncFacts.

Context {World : Type}.

Lemma bind_resolved {A B} (m : Async World A) (k : A -> Async World B) w a w' :
  m w = (Resolved a, w') -> bind m k w = k a w'.
Proof. unfold bind. now intros ->. Qed.

Lemma bind_rejected {A B} (m : Async World A) (k : A -> Async World B) w e w' :
  m w = (Rejected e, w') -> bind m k w = (Rejected e, w').
Proof. unfold bind. now intros ->. Qed.

Lemma tryCatch_resolved {A} (m : Async World A) handler w a w' :
  m w = (Resolved a, w') -> tryCatch m handler w = (Resolved a, w').
Proof. unfold tryCatch. now intros ->. Qed.

Lemma tryCatch_rejected {A} (m : Async World A) handler w e w' :
  m w = (Rejected e, w') -> tryCatch m handler w = handler e w'.
Proof. unfold tryCatch. now intros ->. Qed.

(** Catching an error only to throw it again changes nothing. *)
Lemma tryCatch_rethrow {A} (m : Async World A) w :
  tryCatch m (fun error => throw error) w = m w.
Proof. unfold tryCatch, throw. now destruct (m w) as [[a|e] w']. Qed.

Lemma bind_inv {A B} (m : Async World A) (k : A -> Async World B) w b w'' :
  bind m k w = (Resolved b, w'') ->
  exists a w', m w = (Resolved a, w') /\ k a w' = (Resolved b, w'').
Proof.
  unfold bind. destruct (m w) as [[a|e] w']; [|discriminate].
  intros H. now exists a, w'.
Qed.

End AsyncFacts.

(* ===================================================================== *)
(** * The segmentation loop *)
(* ===================================================================== *)

Import BackgroundRemovalService.

Ltac run_async :=
  unfold bind, tryCatch, ret, throw in *.

Section SegmentationFacts.

Context {World : Type} (P : Platform World).

(** What the caller of the real path sees. *)
Lemma segmentClothing_run (imageUri : string) (w : World) :
  segmentClothing P imageUri w
  = match segmentWithGoogleVision P imageUri w with
    | (Resolved items, w') => (Resolved items, w')
    | (Rejected _, w') => (Resolved (mockItems imageUri), setTimeout P 2000 w')
    end.
Proof.
  unfold segmentClothing, mockSegmentation, sleep. run_async.
  now destruct (segmentWithGoogleVision P imageUri w) as [[items|e] w'].
Qed.

Lemma toPixelRect_Some v0 v2 imageWidth imageHeight box :
  toPixelRect v0 v2 imageWidth imageHeight = Some box ->
  box = pixelBox v0 v2 imageWidth imageHeight /\ invalidDimensions box = false.
Proof.
  unfold toPixelRect.
  destruct (invalidDimensions (pixelBox v0 v2 imageWidth imageHeight)) eqn:E;
    [discriminate|].
  intros [= <-]. now split.
Qed.

(** An object below the confidence floor leaves the items as they are. *)
Lemma processObject_low_score imageUri imageWidth imageHeight items obj
      (s : JsonNumber) w :
  score obj = Some s -> lt s CONFIDENCE_THRESHOLD = true ->
  processObject P imageUri imageWidth imageHeight items obj w = (Resolved items, w).
Proof. intros Hs Hlt. unfold processObject. now rewrite Hs, Hlt. Qed.

(** An object whose rectangle is rejected leaves the items as they are. *)
Lemma processObject_rejected_box imageUri imageWidth imageHeight items obj
      (s : JsonNumber) label category vertices v0 v2 w :
  score obj = Some s -> lt s CONFIDENCE_THRESHOLD = false ->
  name obj = Some label -> mapGoogleLabelToCategory label = Some category ->
  normalizedVertices obj = Some vertices ->
  nth_error vertices 0 = Some v0 -> nth_error vertices 2 = Some v2 ->
  toPixelRect v0 v2 imageWidth imageHeight = None ->
  processObject P imageUri imageWidth imageHeight items obj w = (Resolved items, w).
Proof.
  intros Hs Hlt Hn Hc Hv H0 H2 Hbox. unfold processObject.
  rewrite Hs, Hlt, Hn, Hc, Hv, H0, H2.
  unfold toPixelRect in Hbox.
  destruct (invalidDimensions (pixelBox v0 v2 imageWidth imageHeight));
    [reflexivity | discriminate].
Qed.

(** An accepted object that is cropped adds its item: with the image
    the background remover resolves with, or with the plain crop when
    the background remover rejects. *)
Lemma processObject_cropped imageUri imageWidth imageHeight items obj
      (s : JsonNumber) category box w croppedUri w1 :
  score obj = Some s -> lt s CONFIDENCE_THRESHOLD = false ->
  clothingCandidate obj imageWidth imageHeight category box ->
  cropImageRegion P imageUri box w = (Resolved croppedUri, w1) ->
  processObject P imageUri imageWidth imageHeight items obj w
  = (Resolved (items ++ [itemOf category
                           match fst (removeBackground P croppedUri w1) with
                           | Resolved transparentUri => transparentUri
                           | Rejected _ => croppedUri
                           end box s])%list,
     snd (removeBackground P croppedUri w1)).
Proof.
  intros Hs Hlt [(label & Hn & Hc) (vertices & v0 & v2 & Hv & H0 & H2 & Hbox)] Hcrop.
  apply toPixelRect_Some in Hbox as [-> Hvalid].
  unfold processObject. rewrite Hs, Hlt, Hn, Hc, Hv, H0, H2, Hvalid.
  run_async. rewrite Hcrop.
  now destruct (removeBackground P croppedUri w1) as [[transparentUri|e] w2].
Qed.

(** One turn of the loop pushes at most one item, never drops one, and
    what it pushes carries the score of the object, which is not below
    the confidence floor. *)
Lemma processObject_pushes imageUri imageWidth imageHeight items obj w items' w' :
  processObject P imageUri imageWidth imageHeight items obj w = (Resolved items', w') ->
  items' = items
  \/ exists item (s : JsonNumber),
       items' = (items ++ [item])%list
       /\ score obj = Some s /\ Item.confidence item = s
       /\ lt s CONFIDENCE_THRESHOLD = false.
Proof.
  unfold processObject.
  destruct (score obj) as [s|]; [|discriminate].
  destruct (lt s CONFIDENCE_THRESHOLD) eqn:Hlt; [intros [= <- <-]; now left|].
  destruct (name obj) as [label|]; [|discriminate].
  destruct (mapGoogleLabelToCategory label) as [category|];
    [|intros [= <- <-]; now left].
  destruct (normalizedVertices obj) as [vertices|]; [|discriminate].
  destruct (nth_error vertices 0) as [v0|]; [|discriminate].
  destruct (nth_error vertices 2) as [v2|]; [|discriminate].
  destruct (invalidDimensions _); [intros [= <- <-]; now left|].
  run_async.
  destruct (cropImageRegion P imageUri _ w) as [[croppedUri|e] w1];
    [|intros [= <- <-]; now left].
  destruct (removeBackground P croppedUri w1) as [[transparentUri|e] w2];
    intros [= <- <-]; right; eexists; exists s; repeat split; assumption.
Qed.

Lemma forOf_app imageUri imageWidth imageHeight before after items w :
  forOf P imageUri imageWidth imageHeight (before ++ after) items w
  = bind (forOf P imageUri imageWidth imageHeight before items)
         (forOf P imageUri imageWidth imageHeight after) w.
Proof.
  revert items w; induction before as [|obj before IH]; intros items w.
  - reflexivity.
  - cbn [app forOf]. unfold bind.
    destruct (processObject P imageUri imageWidth imageHeight items obj w)
      as [[items'|e] w']; [|reflexivity].
    rewrite IH. reflexivity.
Qed.

(** The loop only ever appends, and every item it appends satisfies
    what holds of the items of accepted objects. *)
Lemma forOf_appends imageUri imageWidth imageHeight objects :
  forall items w items' w',
    forOf P imageUri imageWidth imageHeight objects items w = (Resolved items', w') ->
    exists pushed,
      items' = (items ++ pushed)%list
      /\ Forall (fun item =>
                   exists (s : JsonNumber),
                     Item.confidence item = s
                     /\ lt s CONFIDENCE_THRESHOLD = false) pushed.
Proof.
  induction objects as [|obj objects IH]; intros items w items' w' H.
  - cbn in H. injection H as <- <-. exists []. now rewrite app_nil_r.
  - cbn [forOf] in H. apply bind_inv in H as (items1 & w1 & Hobj & Hrest).
    destruct (IH _ _ _ _ Hrest) as (pushed & -> & Hall).
    apply processObject_pushes in Hobj as [-> | (item & s & -> & _ & Hc & Hlt)].
    + now exists pushed.
    + exists (item :: pushed). rewrite <- app_assoc. split; [reflexivity|].
      constructor; [now exists s | exact Hall].
Qed.

(** The real path resolves only with a non-empty list that the loop
    collected from an answer of the service. *)
Lemma segmentWithGoogleVision_resolved imageUri w items w' :
  segmentWithGoogleVision P imageUri w = (Resolved items, w') ->
  items <> []
  /\ exists imageWidth imageHeight annotations w1,
       annotate P (GOOGLE_VISION_API_KEY P) imageUri w
       = (Resolved (imageWidth, imageHeight, annotations), w1)
       /\ collectItems P imageUri imageWidth imageHeight annotations w1
          = (Resolved items, w').
Proof.
  unfold segmentWithGoogleVision. cbv zeta.
  destruct (negb (truthy _) || _); [discriminate|].
  rewrite tryCatch_rethrow. intros H.
  apply bind_inv in H as ([[imageWidth imageHeight] annotations] & w1 & Ha & H).
  apply bind_inv in H as (items1 & w2 & Hc & H).
  destruct items1 as [|item items1]; [discriminate|].
  cbn in H. injection H as <- <-.
  split; [discriminate|].
  now exists imageWidth, imageHeight, annotations, w1.
Qed.

(** With the key configured, an answer of the service and a non-empty
    collection, the real path resolves with the collection. *)
Lemma segmentWithGoogleVision_collects imageUri w imageWidth imageHeight
      annotations w1 items w' :
  truthy (GOOGLE_VISION_API_KEY P) = true ->
  GOOGLE_VISION_API_KEY P <> visionPlaceholder ->
  annotate P (GOOGLE_VISION_API_KEY P) imageUri w
  = (Resolved (imageWidth, imageHeight, annotations), w1) ->
  collectItems P imageUri imageWidth imageHeight annotations w1
  = (Resolved items, w') ->
  items <> [] ->
  segmentWithGoogleVision P imageUri w = (Resolved items, w').
Proof.
  intros Hkey Hph Ha Hc Hne. unfold segmentWithGoogleVision. cbv zeta.
  apply String.eqb_neq in Hph. rewrite Hkey, Hph. cbn [negb orb].
  rewrite tryCatch_rethrow.
  rewrite (bind_resolved _ _ _ _ _ Ha). cbn iota beta.
  rewrite (bind_resolved _ _ _ _ _ Hc).
  destruct items; [contradiction | reflexivity].
Qed.

End SegmentationFacts.

(* ===================================================================== *)
(** * The orchestrator *)
(* ===================================================================== *)

Section Orchestrator.

Context {World : Type} (P : Platform World).

(** Each of the failures of [realPathFailure] makes the real path throw. *)
Lemma realPathFailure_rejects imageUri w w' :
  realPathFailure P imageUri w w' ->
  exists e, segmentWithGoogleVision P imageUri w = (Rejected e, w').
Proof.
  unfold segmentWithGoogleVision. cbv zeta.
  intros [Hkey
         |imageInfo w1 base64 w2 e w3 [Hkey Hph] Hm Hr Hf
         |response w3 errorText w4
            [[Hkey Hph] (imageInfo & w1 & base64 & w2 & Hm & Hr & Hf)] Hok Ht
         |response w3 e w4
            [[Hkey Hph] (imageInfo & w1 & base64 & w2 & Hm & Hr & Hf)] Hok Hj
         |response w3 result w4
            [[Hkey Hph] (imageInfo & w1 & base64 & w2 & Hm & Hr & Hf)] Hok Hj Hrs].
  - destruct Hkey as [-> | ->]; eexists; reflexivity.
  - apply String.eqb_neq in Hph. rewrite Hkey, Hph. cbn [negb orb].
    rewrite tryCatch_rethrow. unfold annotate. run_async.
    rewrite Hm, Hr, Hf. eexists; reflexivity.
  - apply String.eqb_neq in Hph. rewrite Hkey, Hph. cbn [negb orb].
    rewrite tryCatch_rethrow. unfold annotate. run_async.
    rewrite Hm, Hr, Hf, Hok. cbn [negb]. rewrite Ht.
    destruct errorText; eexists; reflexivity.
  - apply String.eqb_neq in Hph. rewrite Hkey, Hph. cbn [negb orb].
    rewrite tryCatch_rethrow. unfold annotate. run_async.
    rewrite Hm, Hr, Hf, Hok. cbn [negb]. rewrite Hj. eexists; reflexivity.
  - apply String.eqb_neq in Hph. rewrite Hkey, Hph. cbn [negb orb].
    rewrite tryCatch_rethrow. unfold annotate. run_async.
    rewrite Hm, Hr, Hf, Hok. cbn [negb]. rewrite Hj.
    destruct Hrs as [-> | ->]; eexists; reflexivity.
Qed.

Lemma rejected_gives_mock imageUri w e w' :
  segmentWithGoogleVision P imageUri w = (Rejected e, w') ->
  segmentClothing P imageUri w
  = (Resolved (mockItems imageUri), setTimeout P 2000 w').
Proof. intros H. now rewrite segmentClothing_run, H. Qed.

(** The real path reached the service and collected nothing: it throws
    its no-results error, and the caller answers with the mock items. *)
Lemma nothing_collected_gives_mock imageUri w imageWidth imageHeight
      annotations w1 w2 :
  configured P ->
  annotate P (GOOGLE_VISION_API_KEY P) imageUri w
  = (Resolved (imageWidth, imageHeight, annotations), w1) ->
  collectItems P imageUri imageWidth imageHeight annotations w1
  = (Resolved [], w2) ->
  segmentWithGoogleVision P imageUri w = (Rejected noItemsDetected, w2)
  /\ segmentClothing P imageUri w
     = (Resolved (mockItems imageUri), setTimeout P 2000 w2).
Proof.
  intros [Hkey Hph] Ha Hc.
  assert (H : segmentWithGoogleVision P imageUri w = (Rejected noItemsDetected, w2)).
  { unfold segmentWithGoogleVision. cbv zeta.
    apply String.eqb_neq in Hph. rewrite Hkey, Hph. cbn [negb orb].
    rewrite tryCatch_rethrow.
    rewrite (bind_resolved _ _ _ _ _ Ha). cbn iota beta.
    now rewrite (bind_resolved _ _ _ _ _ Hc). }
  split; [exact H | exact (rejected_gives_mock imageUri w _ w2 H)].
Qed.

End Orchestrator.

(** C1.  What the code does where the claim says it fails: the service
    answers with a person and the sky only, the real path throws its
    no-results error, and [segmentClothing] catches it and resolves with
    the two mock items, two seconds later. *)
Theorem C1_no_results_are_replaced_by_mock_items :
  let P := Device.mattingWorks Device.personAndSky Device.written in
  segmentWithGoogleVision P Device.outfit 0
  = (Rejected (Error "未识别到服装物品，请尝试其他照片"), 0)
  /\ segmentClothing P Device.outfit 0
     = (Resolved (mockItems Device.outfit), 2000).
Proof. split; vm_compute; reflexivity. Qed.

(** C5.  Whenever the real path throws, [segmentClothing] resolves with
    the two mock items: a top of confidence 0.95 and a bottom of
    confidence 0.92, both showing the input image itself.  A missing or
    placeholder credential, a network failure, a response that is not
    2xx and a malformed payload are such throws. *)
Theorem C5_real_path_failure_gives_mock_items :
  forall (World : Type) (P : Platform World) (imageUri : string) (w : World),
    let mock :=
      [ {| Item.category := top; Item.imageUri := imageUri;
           Item.boundingBox := {| Box.x := of_Z 100; Box.y := of_Z 50;
                                  Box.width := of_Z 200; Box.height := of_Z 150 |};
           Item.confidence := literal 95 2 |};
        {| Item.category := bottom; Item.imageUri := imageUri;
           Item.boundingBox := {| Box.x := of_Z 100; Box.y := of_Z 200;
                                  Box.width := of_Z 200; Box.height := of_Z 200 |};
           Item.confidence := literal 92 2 |} ] in
    (forall e w',
        segmentWithGoogleVision P imageUri w = (Rejected e, w') ->
        segmentClothing P imageUri w = (Resolved mock, setTimeout P 2000 w'))
    /\ (forall w',
           realPathFailure P imageUri w w' ->
           segmentClothing P imageUri w = (Resolved mock, setTimeout P 2000 w')).
Proof.
  intros World P imageUri w mock. split.
  - intros e w' H. exact (rejected_gives_mock P imageUri w e w' H).
  - intros w' H. destruct (realPathFailure_rejects P imageUri w w' H) as [e He].
    exact (rejected_gives_mock P imageUri w e w' He).
Qed.

Lemma C5_real_path_failure_gives_mock_items_witness :
  let offline := Device.device "vision-key" "removebg-key"
                   (throw (Error "Network request failed"))
                   timerFired onerror Device.written in
  let unconfigured := Device.device "" "" (Device.answer [])
                        timerFired onerror Device.written in
  segmentWithGoogleVision offline Device.outfit 0
  = (Rejected (Error "Network request failed"), 0)
  /\ segmentClothing offline Device.outfit 0
     = (Resolved (mockItems Device.outfit), 2000)
  /\ realPathFailure unconfigured Device.outfit 0 0
  /\ segmentClothing unconfigured Device.outfit 0
     = (Resolved (mockItems Device.outfit), 2000).
Proof.
  intros offline unconfigured.
  assert (H1 : segmentWithGoogleVision offline Device.outfit 0
               = (Rejected (Error "Network request failed"), 0))
    by (vm_compute; reflexivity).
  assert (H2 : realPathFailure unconfigured Device.outfit 0 0)
    by (apply missingCredential; left; reflexivity).
  split; [exact H1|].
  split; [exact (proj1 (C5_real_path_failure_gives_mock_items
                          Device.World offline Device.outfit 0) _ _ H1)|].
  split; [exact H2|].
  exact (proj2 (C5_real_path_failure_gives_mock_items
                  Device.World unconfigured Device.outfit 0) _ H2).
Defined.

(** C6.  A candidate that survives the filters and is cropped stays in
    the result when the background remover throws for it: the real path
    pushes its item with the plain crop as image, and when the rest of
    the loop completes, [segmentClothing] resolves with a list that
    holds this item. *)
Theorem C6_background_failure_keeps_plain_crop :
  forall (World : Type) (P : Platform World) (imageUri : string)
         (w0 w1 w2 w3 w4 w5 : World) (imageWidth imageHeight : number)
         (annotations : AnnotateImageResponse)
         (objects before after : list LocalizedObject) (obj : LocalizedObject)
         (items1 final : list Item.t) (s : JsonNumber)
         (category : ClothingCategory) (box : Box.t) (croppedUri : string)
         (e : JsError),
    configured P ->
    annotate P (GOOGLE_VISION_API_KEY P) imageUri w0
    = (Resolved (imageWidth, imageHeight, annotations), w1) ->
    localizedObjectAnnotations annotations = Some objects ->
    JsArray.sort byScore objects = (before ++ obj :: after)%list ->
    forOf P imageUri imageWidth imageHeight before [] w1 = (Resolved items1, w2) ->
    score obj = Some s -> lt s CONFIDENCE_THRESHOLD = false ->
    clothingCandidate obj imageWidth imageHeight category box ->
    cropImageRegion P imageUri box w2 = (Resolved croppedUri, w3) ->
    removeBackground P croppedUri w3 = (Rejected e, w4) ->
    forOf P imageUri imageWidth imageHeight after
          (items1 ++ [itemOf category croppedUri box s])%list w4
    = (Resolved final, w5) ->
    processObject P imageUri imageWidth imageHeight items1 obj w2
    = (Resolved (items1 ++ [itemOf category croppedUri box s])%list, w4)
    /\ segmentClothing P imageUri w0 = (Resolved final, w5)
    /\ In {| Item.category := category; Item.imageUri := croppedUri;
             Item.boundingBox := box; Item.confidence := s |} final.
Proof.
  intros World P imageUri w0 w1 w2 w3 w4 w5 imageWidth imageHeight annotations
         objects before after obj items1 final s category box croppedUri e
         [Hkey Hph] Hann Hobjs Hsort Hbefore Hs Hlt Hcand Hcrop Hbg Hafter.
  assert (Hobj : processObject P imageUri imageWidth imageHeight items1 obj w2
                 = (Resolved (items1 ++ [itemOf category croppedUri box s])%list, w4)).
  { rewrite (processObject_cropped P _ _ _ _ _ s category box w2 croppedUri w3
               Hs Hlt Hcand Hcrop).
    now rewrite Hbg. }
  assert (Hin : In (itemOf category croppedUri box s) final).
  { destruct (forOf_appends P _ _ _ _ _ _ _ _ Hafter) as (pushed & -> & _).
    apply in_or_app. left. apply in_or_app. right. now left. }
  split; [exact Hobj|]. split; [|exact Hin].
  rewrite segmentClothing_run.
  rewrite (segmentWithGoogleVision_collects P imageUri w0 imageWidth imageHeight
             annotations w1 final w5 Hkey Hph Hann); [reflexivity| |].
  - unfold collectItems. rewrite Hobjs, Hsort, forOf_app.
    rewrite (bind_resolved _ _ _ _ _ Hbefore). cbn [forOf].
    now rewrite (bind_resolved _ _ _ _ _ Hobj).
  - intros ->. exact Hin.
Qed.

Lemma C6_background_failure_keeps_plain_crop_witness :
  let P := Device.mattingTimesOut Device.personAndDress in
  let box := {| Box.x := of_Z 100; Box.y := of_Z 200;
                Box.width := of_Z 500; Box.height := of_Z 499 |} in
  removeBackground P Device.cropped 0 = (Rejected (Error "背景移除失败"), 0)
  /\ segmentClothing P Device.outfit 0
     = (Resolved [itemOf dress Device.cropped box (literal 8 1)], 0).
Proof.
  intros P box.
  assert (Hbg : removeBackground P Device.cropped 0
                = (Rejected (Error "背景移除失败"), 0))
    by (vm_compute; reflexivity).
  split; [exact Hbg|].
  refine (proj1 (proj2
    (C6_background_failure_keeps_plain_crop
       Device.World P Device.outfit 0 0 0 0 0 0 (of_Z 1000) (of_Z 1000)
       {| localizedObjectAnnotations := Some Device.personAndDress |}
       Device.personAndDress
       [Device.localized "Person" (Device.jsonNumber 9 1 eq_refl)
                         (Device.quad 0 0 10 10)]
       []
       (Device.localized "Red dress" (Device.jsonNumber 8 1 eq_refl)
                         (Device.quad 1 2 6 7))
       [] [itemOf dress Device.cropped box (literal 8 1)]
       (Device.jsonNumber 8 1 eq_refl) dress box Device.cropped
       (Error "背景移除失败") _ _ _ _ _ _ _ _ _ Hbg _))).
  - split; [reflexivity | discriminate].
  - vm_compute; reflexivity.
  - reflexivity.
  - vm_compute; reflexivity.
  - vm_compute; reflexivity.
  - reflexivity.
  - vm_compute; reflexivity.
  - split.
    + exists "Red dress". split; [reflexivity | vm_compute; reflexivity].
    + exists (Device.quad 1 2 6 7), (Device.vertex 1 2), (Device.vertex 6 7).
      repeat split; vm_compute; reflexivity.
  - vm_compute; reflexivity.
  - vm_compute; reflexivity.
Defined.

(** C10.  Every list [segmentClothing] resolves with, from the real
    path or from the mock fallback, holds only items whose category is
    one of the six categories and whose confidence is at least 0.3: an
    item of the real path carries the score of its object, a number of
    the JSON payload that the filter did not find below 0.3, and the
    mock items carry 0.95 and 0.92. *)
Theorem C10_results_are_categorized_and_confident :
  forall (World : Type) (P : Platform World) (imageUri : string)
         (w w' : World) (items : list Item.t),
    segmentClothing P imageUri w = (Resolved items, w') ->
    Forall (fun item =>
              In (Item.category item)
                 [top; bottom; dress; outerwear; shoes; accessories]
              /\ ge (Item.confidence item) (literal 3 1) = true) items.
Proof.
  intros World P imageUri w w' items H.
  assert (Hcat : forall c, In c [top; bottom; dress; outerwear; shoes; accessories])
    by (intros []; simpl; tauto).
  rewrite segmentClothing_run in H.
  destruct (segmentWithGoogleVision P imageUri w) as [[found|e] w1] eqn:Hreal.
  - injection H as <- <-.
    apply segmentWithGoogleVision_resolved in Hreal
      as (_ & imageWidth & imageHeight & annotations & w2 & _ & Hc).
    unfold collectItems in Hc.
    destruct (localizedObjectAnnotations annotations) as [objects|].
    + destruct (forOf_appends P _ _ _ _ _ _ _ _ Hc) as (pushed & -> & Hall).
      cbn [app]. apply Forall_forall. intros item Hitem.
      split; [apply Hcat|].
      rewrite Forall_forall in Hall.
      destruct (Hall item Hitem) as (s & -> & Hlt).
      apply not_lt_ge; [exact (value_not_nan s) | reflexivity | exact Hlt].
    + injection Hc as <- <-. constructor.
  - injection H as <- <-.
    repeat constructor; try apply Hcat; vm_compute; reflexivity.
Qed.

Lemma C10_results_are_categorized_and_confident_witness :
  let P := Device.mattingWorks Device.personAndDress Device.written in
  let result :=
    [itemOf dress "file:///documents/bg_removed_0.png"
            {| Box.x := of_Z 100; Box.y := of_Z 200;
               Box.width := of_Z 500; Box.height := of_Z 499 |} (literal 8 1)] in
  segmentClothing P Device.outfit 0 = (Resolved result, 0)
  /\ Forall (fun item =>
               In (Item.category item)
                  [top; bottom; dress; outerwear; shoes; accessories]
               /\ ge (Item.confidence item) (literal 3 1) = true) result.
Proof.
  intros P result.
  assert (H : segmentClothing P Device.outfit 0 = (Resolved result, 0))
    by (vm_compute; reflexivity).
  split; [exact H|].
  exact (C10_results_are_categorized_and_confident
           Device.World P Device.outfit 0 0 result H).
Defined.

(* ===================================================================== *)
(** * The coordinate mapper and the confidence floor *)
(* ===================================================================== *)

(** [Math.floor] of a finite number with a fractional part is the
    integer [z] with [z * 2^k <= m < (z + 1) * 2^k], where the number
    is [m / 2^k]. *)
Lemma floor_finite (s : bool) (m : positive) (e : Z) :
  e < 0 ->
  let z := cond_Zopp s (Zpos m) / 2 ^ (- e) in
  floor (S754_finite s m e) = of_Z z
  /\ z * 2 ^ (- e) <= cond_Zopp s (Zpos m) < (z + 1) * 2 ^ (- e).
Proof.
  intros He z. split.
  - unfold floor. destruct (0 <=? e) eqn:E; [apply Z.leb_le in E; lia | reflexivity].
  - assert (Hp : 0 < 2 ^ (- e)) by (apply Z.pow_pos_nonneg; lia).
    pose proof (Z.mul_div_le (cond_Zopp s (Zpos m)) _ Hp).
    pose proof (Z.mul_succ_div_gt (cond_Zopp s (Zpos m)) _ Hp).
    unfold z. lia.
Qed.

(** C2, as amended.  The mapper computes x = floor(topLeft.x * width of
    the image), y = floor(topLeft.y * height of the image), width =
    floor((bottomRight.x - topLeft.x) * width of the image), height =
    floor((bottomRight.y - topLeft.y) * height of the image), every
    product and difference rounded to binary64; topLeft = (0.1, 0.2) and
    bottomRight = (0.6, 0.7) on a 1000 x 1000 image give x 100, y 200,
    width 500 and height 499 (0.7 - 0.2 is 0.49999999999999994); and a
    candidate whose width or height is not positive is dropped: the loop
    keeps its items and goes on with the next candidate. *)
Theorem C2_coordinate_mapper :
  (forall topLeft bottomRight imageWidth imageHeight,
      toPixelRect topLeft bottomRight imageWidth imageHeight
      = let x := floor (mul (vx topLeft) imageWidth) in
        let y := floor (mul (vy topLeft) imageHeight) in
        let width := floor (mul (sub (vx bottomRight) (vx topLeft)) imageWidth) in
        let height := floor (mul (sub (vy bottomRight) (vy topLeft)) imageHeight) in
        if le width pos_zero || le height pos_zero then None
        else Some {| Box.x := x; Box.y := y;
                     Box.width := width; Box.height := height |})
  /\ toPixelRect {| vx := literal 1 1; vy := literal 2 1 |}
                 {| vx := literal 6 1; vy := literal 7 1 |}
                 (of_Z 1000) (of_Z 1000)
     = Some {| Box.x := of_Z 100; Box.y := of_Z 200;
               Box.width := of_Z 500; Box.height := of_Z 499 |}
  /\ (forall (World : Type) (P : Platform World) imageUri imageWidth imageHeight
             items obj (s : JsonNumber) label category vertices
             topLeft bottomRight rest w,
         score obj = Some s -> lt s CONFIDENCE_THRESHOLD = false ->
         name obj = Some label -> mapGoogleLabelToCategory label = Some category ->
         normalizedVertices obj = Some vertices ->
         nth_error vertices 0 = Some topLeft ->
         nth_error vertices 2 = Some bottomRight ->
         toPixelRect topLeft bottomRight imageWidth imageHeight = None ->
         processObject P imageUri imageWidth imageHeight items obj w
         = (Resolved items, w)
         /\ forOf P imageUri imageWidth imageHeight (obj :: rest) items w
            = forOf P imageUri imageWidth imageHeight rest items w).
Proof.
  split; [reflexivity|]. split; [vm_compute; reflexivity|].
  intros World P imageUri imageWidth imageHeight items obj s label category
         vertices topLeft bottomRight rest w Hs Hlt Hn Hc Hv H0 H2 Hbox.
  pose proof (processObject_rejected_box P imageUri imageWidth imageHeight items
                obj s label category vertices topLeft bottomRight w
                Hs Hlt Hn Hc Hv H0 H2 Hbox) as Hobj.
  split; [exact Hobj|].
  cbn [forOf]. now rewrite (bind_resolved _ _ _ _ _ Hobj).
Qed.

Lemma C2_coordinate_mapper_witness :
  let P := Device.mattingWorks Device.personAndDress Device.written in
  let flat := Device.localized "Red dress" (Device.jsonNumber 8 1 eq_refl)
                               (Device.quad 5 5 5 9) in
  toPixelRect (Device.vertex 5 5) (Device.vertex 5 9) (of_Z 1000) (of_Z 1000) = None
  /\ processObject P Device.outfit (of_Z 1000) (of_Z 1000) [] flat 0
     = (Resolved [], 0).
Proof.
  intros P flat.
  assert (Hbox : toPixelRect (Device.vertex 5 5) (Device.vertex 5 9)
                             (of_Z 1000) (of_Z 1000) = None)
    by (vm_compute; reflexivity).
  split; [exact Hbox|].
  refine (proj1 (proj2 (proj2 C2_coordinate_mapper) Device.World P Device.outfit
                       (of_Z 1000) (of_Z 1000) [] flat
                       (Device.jsonNumber 8 1 eq_refl) "Red dress" dress
                       (Device.quad 5 5 5 9) (Device.vertex 5 5) (Device.vertex 5 9)
                       [] 0 _ _ _ _ _ _ _ Hbox));
    try reflexivity; vm_compute; reflexivity.
Defined.

(** C2 as the specification words it fails on its own example: the
    height is not 500. *)
Lemma C2_example_height_is_not_500 :
  toPixelRect {| vx := literal 1 1; vy := literal 2 1 |}
              {| vx := literal 6 1; vy := literal 7 1 |}
              (of_Z 1000) (of_Z 1000)
  <> Some {| Box.x := of_Z 100; Box.y := of_Z 200;
             Box.width := of_Z 500; Box.height := of_Z 500 |}.
Proof. vm_compute. discriminate. Qed.

(** C4.  The confidence floor is inclusive: 0.3 is not below it and
    0.29999 is; a candidate with a score below 0.3 is dropped at the
    filter, and a candidate with the score 0.3 that the mappers accept
    and the cropper crops has its item pushed, with confidence 0.3. *)
Theorem C4_confidence_floor_is_inclusive :
  CONFIDENCE_THRESHOLD = literal 3 1
  /\ lt (literal 3 1) CONFIDENCE_THRESHOLD = false
  /\ lt (literal 29999 5) CONFIDENCE_THRESHOLD = true
  /\ (forall (World : Type) (P : Platform World) imageUri imageWidth imageHeight
             items obj (s : JsonNumber) w,
         score obj = Some s -> lt s (literal 3 1) = true ->
         processObject P imageUri imageWidth imageHeight items obj w
         = (Resolved items, w))
  /\ (forall (World : Type) (P : Platform World) imageUri imageWidth imageHeight
             items obj (s : JsonNumber) category box w croppedUri w1,
         score obj = Some s -> value s = literal 3 1 ->
         clothingCandidate obj imageWidth imageHeight category box ->
         cropImageRegion P imageUri box w = (Resolved croppedUri, w1) ->
         exists uri w2,
           processObject P imageUri imageWidth imageHeight items obj w
           = (Resolved (items ++ [ {| Item.category := category;
                                      Item.imageUri := uri;
                                      Item.boundingBox := box;
                                      Item.confidence := literal 3 1 |} ])%list,
              w2)).
Proof.
  split; [reflexivity|]. split; [vm_compute; reflexivity|].
  split; [vm_compute; reflexivity|]. split.
  - intros World P imageUri imageWidth imageHeight items obj s w Hs Hlt.
    exact (processObject_low_score P imageUri imageWidth imageHeight items obj s w
             Hs Hlt).
  - intros World P imageUri imageWidth imageHeight items obj s category box w
           croppedUri w1 Hs Hv Hcand Hcrop.
    assert (Hlt : lt s CONFIDENCE_THRESHOLD = false)
      by (rewrite Hv; vm_compute; reflexivity).
    rewrite (processObject_cropped P imageUri imageWidth imageHeight items obj s
               category box w croppedUri w1 Hs Hlt Hcand Hcrop).
    rewrite Hv. eexists. eexists. reflexivity.
Qed.

Lemma C4_confidence_floor_is_inclusive_witness :
  let P := Device.mattingTimesOut [] in
  let box := {| Box.x := of_Z 100; Box.y := of_Z 200;
                Box.width := of_Z 500; Box.height := of_Z 499 |} in
  let atFloor := Device.localized "Red dress" (Device.jsonNumber 3 1 eq_refl)
                                  (Device.quad 1 2 6 7) in
  let below := Device.localized "Red dress" (Device.jsonNumber 29999 5 eq_refl)
                                (Device.quad 1 2 6 7) in
  processObject P Device.outfit (of_Z 1000) (of_Z 1000) [] below 0
  = (Resolved [], 0)
  /\ exists uri w2,
       processObject P Device.outfit (of_Z 1000) (of_Z 1000) [] atFloor 0
       = (Resolved [itemOf dress uri box (literal 3 1)], w2).
Proof.
  intros P box atFloor below.
  destruct C4_confidence_floor_is_inclusive as (_ & _ & _ & Hdrop & Hkeep).
  split.
  - refine (Hdrop Device.World P Device.outfit (of_Z 1000) (of_Z 1000) [] below
                  (Device.jsonNumber 29999 5 eq_refl) 0 _ _);
      [reflexivity | vm_compute; reflexivity].
  - refine (Hkeep Device.World P Device.outfit (of_Z 1000) (of_Z 1000) [] atFloor
                  (Device.jsonNumber 3 1 eq_refl) dress box 0 Device.cropped 0
                  _ _ _ _); [reflexivity | reflexivity | | vm_compute; reflexivity].
    split.
    + exists "Red dress". split; [reflexivity | vm_compute; reflexivity].
    + exists (Device.quad 1 2 6 7), (Device.vertex 1 2), (Device.vertex 6 7).
      repeat split; vm_compute; reflexivity.
Defined.

(* ===================================================================== *)
(** * The background remover *)
(* ===================================================================== *)

Section RemoveBg.

Context {World : Type} (P : Platform World).

(** The handler of [removeBackgroundWithRemoveBg] throws for every error. *)
Lemma removeBackgroundWithRemoveBg_resolved imageUri w fileUri w' :
  removeBackgroundWithRemoveBg P imageUri w = (Resolved fileUri, w') ->
  removeBgRequest P (REMOVE_BG_API_KEY P) imageUri w = (Resolved fileUri, w').
Proof.
  unfold removeBackgroundWithRemoveBg. cbv zeta.
  destruct (negb (truthy _) || _); [discriminate|].
  unfold tryCatch.
  destruct (removeBgRequest P (REMOVE_BG_API_KEY P) imageUri w) as [[uri|e] w1];
    [trivial|].
  destruct (message e =? "Request timeout")%string; [discriminate|].
  destruct (includes (message e) "API"); discriminate.
Qed.

(** A data URL that the reader delivers always yields its base64 text. *)
Lemma readBase64_of_data_url data w result w' :
  readAsDataURL P data w = (onloadend (Some result), w') ->
  includes result "," = true ->
  exists base64, readBase64 P data w = (Resolved base64, w').
Proof.
  intros Hread Hcomma. unfold readBase64. rewrite Hread, Hcomma.
  destruct (split_second_part result Hcomma) as [part ->].
  assert (Ht : truthy result = true) by (destruct result; [discriminate | reflexivity]).
  rewrite Ht. now exists part.
Qed.

End RemoveBg.

(** C9, as amended.  When the real background removal resolves, the
    service had answered with an ok response, the image it sent was not
    empty, its base64 text was written to a new file named after the
    clock, and [getInfoAsync] reported that this file exists; an empty
    image and a missing file make the operation throw.  (The size that
    [getInfoAsync] reports for the file is logged and not tested.) *)
Theorem C9_removal_verifies_data_and_file :
  forall (World : Type) (P : Platform World) (imageUri : string) (w : World),
    (forall fileUri w',
        removeBackgroundWithRemoveBg P imageUri w = (Resolved fileUri, w') ->
        exists response w1 data w2 base64 w3 w4 fileInfo,
          fetchRemoveBg P (REMOVE_BG_API_KEY P) imageUri 30000 w
          = (fetchSettled (Resolved response), w1)
          /\ ok response = true
          /\ blob response w1 = (Resolved data, w2)
          /\ blob_size data <> 0
          /\ readBase64 P data w2 = (Resolved base64, w3)
          /\ fileUri = documentDirectory P ++ "bg_removed_"
                       ++ showZ (Date_now P w3) ++ ".png"
          /\ writeAsStringAsync P fileUri base64 w3 = (Resolved tt, w4)
          /\ getInfoAsync P fileUri w4 = (Resolved fileInfo, w')
          /\ exists_ fileInfo = true)
    /\ (forall response w1 data w2,
           fetchRemoveBg P (REMOVE_BG_API_KEY P) imageUri 30000 w
           = (fetchSettled (Resolved response), w1) ->
           ok response = true ->
           blob response w1 = (Resolved data, w2) ->
           blob_size data = 0 ->
           exists e w',
             removeBackgroundWithRemoveBg P imageUri w = (Rejected e, w'))
    /\ (forall response w1 data w2 base64 w3 w4 fileInfo w5,
           fetchRemoveBg P (REMOVE_BG_API_KEY P) imageUri 30000 w
           = (fetchSettled (Resolved response), w1) ->
           ok response = true ->
           blob response w1 = (Resolved data, w2) ->
           readBase64 P data w2 = (Resolved base64, w3) ->
           let fileUri := documentDirectory P ++ "bg_removed_"
                          ++ showZ (Date_now P w3) ++ ".png" in
           writeAsStringAsync P fileUri base64 w3 = (Resolved tt, w4) ->
           getInfoAsync P fileUri w4 = (Resolved fileInfo, w5) ->
           exists_ fileInfo = false ->
           exists e w',
             removeBackgroundWithRemoveBg P imageUri w = (Rejected e, w')).
Proof.
  intros World P imageUri w. split; [|split].
  - intros fileUri w' H.
    apply removeBackgroundWithRemoveBg_resolved in H.
    unfold removeBgRequest in H. cbv zeta in H.
    apply bind_inv in H as (response & w1 & Hfetch & H).
    destruct (fetchRemoveBg P (REMOVE_BG_API_KEY P) imageUri 30000 w)
      as [[[r|e]|] w1'] eqn:Hrace; try discriminate.
    injection Hfetch as -> ->.
    destruct (ok response) eqn:Hok; cbn [negb] in H.
    2:{ apply bind_inv in H as (m & wm & _ & H). discriminate. }
    apply bind_inv in H as (data & w2 & Hblob & H).
    destruct (blob_size data =? 0) eqn:Hsize; [discriminate|].
    apply bind_inv in H as (base64 & w3 & Hread & H).
    apply bind_inv in H as (now & w3' & Hnow & H).
    injection Hnow as <- <-.
    apply bind_inv in H as ([] & w4 & Hwrite & H).
    apply bind_inv in H as (fileInfo & w5 & Hinfo & H).
    destruct (exists_ fileInfo) eqn:Hex; cbn [negb] in H; [|discriminate].
    injection H as <- <-.
    exists response, w1, data, w2, base64, w3, w4, fileInfo.
    apply Z.eqb_neq in Hsize. repeat split; assumption.
  - intros response w1 data w2 Hfetch Hok Hblob Hsize.
    destruct (removeBackgroundWithRemoveBg P imageUri w) as [[fileUri|e] w'] eqn:H;
      [exfalso | now exists e, w'].
    apply removeBackgroundWithRemoveBg_resolved in H.
    unfold removeBgRequest in H. cbv zeta in H. run_async.
    rewrite Hfetch, Hok in H. cbn [negb] in H.
    rewrite Hblob, Hsize in H. discriminate.
  - intros response w1 data w2 base64 w3 w4 fileInfo w5 Hfetch Hok Hblob Hread
           fileUri Hwrite Hinfo Hex.
    destruct (removeBackgroundWithRemoveBg P imageUri w) as [[uri|e] w'] eqn:H;
      [exfalso | now exists e, w'].
    apply removeBackgroundWithRemoveBg_resolved in H.
    unfold removeBgRequest in H. cbv zeta in H. run_async.
    rewrite Hfetch, Hok in H. cbn [negb] in H. rewrite Hblob in H.
    destruct (blob_size data =? 0); [discriminate|].
    rewrite Hread in H. fold fileUri in H. rewrite Hwrite, Hinfo, Hex in H.
    discriminate.
Qed.

Lemma C9_removal_verifies_data_and_file_witness :
  let P := Device.mattingWorks [] Device.written in
  let emptyImage :=
    Device.device "vision-key" "removebg-key" (Device.answer [])
      (fetchSettled (Resolved (Device.respond true 200 (throw (Error "not JSON"))
                                              {| blob_size := 0 |})))
      onerror Device.written in
  let missing := Device.mattingWorks [] {| exists_ := false; info_size := 0 |} in
  removeBackgroundWithRemoveBg P Device.cropped 1700000000000
  = (Resolved "file:///documents/bg_removed_1700000000000.png", 1700000000000)
  /\ getInfoAsync P "file:///documents/bg_removed_1700000000000.png" 1700000000000
     = (Resolved Device.written, 1700000000000)
  /\ (exists e w', removeBackgroundWithRemoveBg emptyImage Device.cropped 0
                   = (Rejected e, w'))
  /\ (exists e w', removeBackgroundWithRemoveBg missing Device.cropped 0
                   = (Rejected e, w')).
Proof.
  intros P emptyImage missing.
  assert (H : removeBackgroundWithRemoveBg P Device.cropped 1700000000000
              = (Resolved "file:///documents/bg_removed_1700000000000.png",
                 1700000000000)) by (vm_compute; reflexivity).
  split; [exact H|]. split; [|split].
  - destruct (proj1 (C9_removal_verifies_data_and_file
                       Device.World P Device.cropped 1700000000000) _ _ H)
      as (r & w1 & d & w2 & b & w3 & w4 & info & _ & _ & _ & _ & _ & _ & _ & _ & _).
    reflexivity.
  - refine (proj1 (proj2 (C9_removal_verifies_data_and_file
                            Device.World emptyImage Device.cropped 0))
                  _ 0 {| blob_size := 0 |} 0 _ _ _ _); reflexivity.
  - refine (proj2 (proj2 (C9_removal_verifies_data_and_file
                            Device.World missing Device.cropped 0))
                  _ 0 {| blob_size := 5 |} 0 "aGVsbG8=" 0 0
                  {| exists_ := false; info_size := 0 |} 0 _ _ _ _ _ _ _);
      try reflexivity.
Defined.

(** C9 as the specification words it fails: the file system reports a
    file of zero bytes and the operation resolves with it all the same. *)
Lemma C9_zero_byte_file_is_returned :
  ~ (forall (P : Platform Device.World) imageUri w fileUri w' w4 fileInfo,
        removeBackgroundWithRemoveBg P imageUri w = (Resolved fileUri, w') ->
        getInfoAsync P fileUri w4 = (Resolved fileInfo, w') ->
        0 < info_size fileInfo).
Proof.
  intros claim.
  specialize (claim (Device.mattingWorks [] {| exists_ := true; info_size := 0 |})
                    Device.cropped 0 "file:///documents/bg_removed_0.png" 0 0
                    {| exists_ := true; info_size := 0 |}
                    ltac:(vm_compute; reflexivity) eq_refl).
  cbn in claim. lia.
Qed.

(* ===================================================================== *)
(** * Further properties: the recognition service *)
(* ===================================================================== *)

Section RecognitionFacts.

Lemma result_eta (r : AIRecognitionResult) :
  r = {| ai_category := ai_category r; ai_confidence := ai_confidence r |}.
Proof. now destruct r. Qed.

Lemma mockRecognition_index (imageUri : string) :
  mockRecognition imageUri
  = nth (Z.to_nat (hashOf imageUri mod 6)) allCategories top.
Proof.
  unfold mockRecognition. cbv zeta.
  cbn [List.length Z.of_nat Pos.of_succ_nat Pos.succ].
  now rewrite Z.rem_mod_nonneg by (pose proof (hashOf_nonneg imageUri); lia).
Qed.

(** The multiple recognition starts with the single one. *)
Lemma mock_head (imageUri : string) :
  exists rest,
    mockRecognitionMultiple imageUri
    = {| ai_category := mockRecognition imageUri; ai_confidence := literal 95 2 |}
        :: rest.
Proof.
  rewrite mock_unfolded.
  pose proof (hashOf_nonneg imageUri) as Hh.
  pose proof (Z.mod_pos_bound (hashOf imageUri) 3 ltac:(lia)) as Hm.
  destruct (Z.to_nat (hashOf imageUri mod 3 + 1)) as [|k] eqn:Hk; [lia|].
  cbn [seq map]. eexists.
  rewrite (result_eta (resultAt (hashOf imageUri) (Z.of_nat 0))).
  rewrite (resultAt_confidence _ 0 ltac:(lia)).
  rewrite resultAt_category by lia.
  rewrite mockRecognition_index. cbn [Z.of_nat]. rewrite Z.add_0_r.
  reflexivity.
Qed.

Lemma sum_permutation (l l' : list Z) :
  Permutation l l' ->
  fold_left (fun acc char => acc + char) l 0
  = fold_left (fun acc char => acc + char) l' 0.
Proof.
  induction 1 as [|c l l' _ IH|c d l|l l' l'' _ IH1 _ IH2].
  - reflexivity.
  - cbn [fold_left]. rewrite (fold_sum_shift l), (fold_sum_shift l'). now rewrite IH.
  - cbn [fold_left]. rewrite (fold_sum_shift l (0 + d + c)), (fold_sum_shift l (0 + c + d)).
    lia.
  - now rewrite IH1.
Qed.

Lemma mock_depends_on_hash_mod_6 (a b : string) :
  hashOf a mod 6 = hashOf b mod 6 ->
  mockRecognitionMultiple a = mockRecognitionMultiple b.
Proof.
  intros H. rewrite !mock_unfolded.
  pose proof (hashOf_nonneg a) as Ha. pose proof (hashOf_nonneg b) as Hb.
  assert (H3 : hashOf a mod 3 = hashOf b mod 3).
  { assert (Hsplit : forall h, h mod 3 = (h mod 6) mod 3)
      by (intros h; Z.div_mod_to_equations; lia).
    now rewrite (Hsplit (hashOf a)), (Hsplit (hashOf b)), H. }
  rewrite H3. apply map_ext. intros i.
  unfold resultAt. f_equal.
  rewrite !categoryIndex_walk by lia.
  now rewrite (Z.add_mod (hashOf a)), H, <- Z.add_mod by lia.
Qed.

End RecognitionFacts.

(** X1.  [recognizeClothingCategory] resolves, after its second of
    waiting, with the category of index hash mod 6: the guess of
    [mockRecognition], which is also the first suggestion of the
    multiple recognition, of confidence 0.95; the default is never used. *)
Theorem X1_single_recognition_is_first_suggestion :
  forall (World : Type) (P : Platform World) (imageUri : string) (w : World),
    recognizeClothingCategory P imageUri w
    = (Resolved (mockRecognition imageUri), setTimeout P 1000 w)
    /\ nth_error [top; bottom; dress; outerwear; shoes; accessories]
                 (Z.to_nat (hashOf imageUri mod 6))
       = Some (mockRecognition imageUri)
    /\ exists rest,
         mockRecognitionMultiple imageUri
         = {| ai_category := mockRecognition imageUri;
              ai_confidence := literal 95 2 |} :: rest.
Proof.
  intros World P imageUri w.
  destruct (mock_head imageUri) as [rest Hrest].
  split; [|split].
  - unfold recognizeClothingCategory, recognizeClothingCategories, sleep.
    run_async. now rewrite Hrest.
  - rewrite mockRecognition_index.
    pose proof (Z.mod_pos_bound (hashOf imageUri) 6 ltac:(lia)).
    apply (nth_error_nth' allCategories top). cbn [allCategories List.length]. lia.
  - now exists rest.
Qed.

(** X2.  The mock recognition sees an image reference only through the
    sum of its character codes modulo 6: two references whose sums agree
    modulo 6 get the same suggestions, and so do two references that
    are rearrangements of each other. *)
Theorem X2_recognition_depends_on_hash_mod_6 :
  (forall a b : string,
      hashOf a mod 6 = hashOf b mod 6 ->
      mockRecognitionMultiple a = mockRecognitionMultiple b)
  /\ (forall a b : string,
         Permutation (list_ascii_of_string a) (list_ascii_of_string b) ->
         mockRecognitionMultiple a = mockRecognitionMultiple b).
Proof.
  split; [exact mock_depends_on_hash_mod_6|].
  intros a b H. apply mock_depends_on_hash_mod_6. f_equal.
  unfold hashOf, charCodes. apply sum_permutation. now apply Permutation_map.
Qed.

Lemma X2_recognition_depends_on_hash_mod_6_witness :
  mockRecognitionMultiple "file:///a.jpg" = mockRecognitionMultiple "file:///g.jpg"
  /\ mockRecognitionMultiple "img_12.png" = mockRecognitionMultiple "img_21.png".
Proof.
  split.
  - apply (proj1 X2_recognition_depends_on_hash_mod_6). reflexivity.
  - apply (proj2 X2_recognition_depends_on_hash_mod_6).
    cbn [list_ascii_of_string].
    do 4 apply perm_skip. apply perm_swap.
Defined.

(** X3.  [suggestTags] always resolves, 800 ms later, with the bundle of
    index hash mod 5 of its table, which has three tags; it never
    resolves with the empty list of its catch branch. *)
Theorem X3_suggestTags_gives_a_bundle_of_three :
  forall (World : Type) (P : Platform World) (imageUri : string) (w : World),
  exists bundle,
    suggestTags P imageUri w = (Resolved bundle, setTimeout P 800 w)
    /\ nth_error possibleTags (Z.to_nat (hashOf imageUri mod 5)) = Some bundle
    /\ List.length bundle = 3%nat.
Proof.
  intros World P imageUri w.
  unfold suggestTags, sleep. run_async. cbv zeta.
  cbn [possibleTags List.length Z.of_nat Pos.of_succ_nat Pos.succ].
  rewrite Z.rem_mod_nonneg by (pose proof (hashOf_nonneg imageUri); lia).
  pose proof (Z.mod_pos_bound (hashOf imageUri) 5 ltac:(lia)) as Hm.
  assert (Hc : hashOf imageUri mod 5 = 0 \/ hashOf imageUri mod 5 = 1
               \/ hashOf imageUri mod 5 = 2 \/ hashOf imageUri mod 5 = 3
               \/ hashOf imageUri mod 5 = 4) by lia.
  destruct Hc as [-> | [-> | [-> | [-> | ->]]]];
    eexists; repeat split; reflexivity.
Qed.

(** X4.  [mapAIResultToCategory] answers top when the labels are absent
    or empty, and it answers outerwear only for a label that contains
    "coat", "blazer" or "cardigan" and does not contain "jacket": the
    keyword "jacket" of the outerwear list is shadowed by the same
    keyword of the top list, which is tried first. *)
Theorem X4_jacket_is_never_outerwear :
  mapAIResultToCategory None = top
  /\ mapAIResultToCategory (Some []) = top
  /\ (forall labels,
         mapAIResultToCategory (Some labels) = outerwear ->
         exists label,
           In label labels
           /\ includes (toLowerCase label) "jacket" = false
           /\ (includes (toLowerCase label) "coat" = true
               \/ includes (toLowerCase label) "blazer" = true
               \/ includes (toLowerCase label) "cardigan" = true)).
Proof.
  split; [reflexivity|]. split; [reflexivity|].
  unfold mapAIResultToCategory.
  induction labels as [|label labels IH]; cbn [firstCategory]; [discriminate|].
  unfold categoryOfLabel. cbv zeta.
  cbn [categoryKeywords find snd existsb].
  set (low := toLowerCase label).
  destruct (includes low "shirt" || (includes low "t-shirt" || (includes low "blouse"
            || (includes low "top" || (includes low "sweater"
            || (includes low "jacket" || false)))))) eqn:Htop; [discriminate|].
  destruct (includes low "pants" || _); [discriminate|].
  destruct (includes low "dress" || _); [discriminate|].
  destruct (includes low "coat" || (includes low "jacket" || (includes low "blazer"
            || (includes low "cardigan" || false)))) eqn:Hout.
  - intros _. exists label. split; [now left|].
    assert (Hj : includes low "jacket" = false).
    { do 5 (apply orb_false_iff in Htop as [_ Htop]).
      now apply orb_false_iff in Htop as [Htop _]. }
    split; [exact Hj|].
    rewrite Hj in Hout. cbn [orb] in Hout.
    rewrite orb_false_r in Hout.
    apply orb_true_iff in Hout as [H|H]; [now left|].
    apply orb_true_iff in H as [H|H]; [right; now left | right; now right].
  - destruct (includes low "shoe" || _); [discriminate|].
    destruct (includes low "bag" || _); [discriminate|].
    intros H. destruct (IH H) as (l & Hin & Hl). exists l. split; [now right | exact Hl].
Qed.

Lemma X4_jacket_is_never_outerwear_witness :
  mapAIResultToCategory (Some ["Sky"; "Wool coat"]) = outerwear
  /\ mapAIResultToCategory (Some ["Leather jacket"]) = top
  /\ exists label,
       In label ["Sky"; "Wool coat"]
       /\ includes (toLowerCase label) "jacket" = false
       /\ (includes (toLowerCase label) "coat" = true
           \/ includes (toLowerCase label) "blazer" = true
           \/ includes (toLowerCase label) "cardigan" = true).
Proof.
  assert (H : mapAIResultToCategory (Some ["Sky"; "Wool coat"]) = outerwear)
    by reflexivity.
  split; [exact H|]. split; [reflexivity|].
  exact (proj2 (proj2 X4_jacket_is_never_outerwear) _ H).
Defined.

(** X5.  The suggestion chips of the upload screen show
    [Math.round(confidence * 100)]: for the mock recognition these are
    95, 80 and 65, as many of them as there are suggestions, although
    the second and third confidence are not 0.80 and 0.65. *)
Theorem X5_suggestions_show_95_80_65 (imageUri : string) :
  map (fun r => UploadScreen.percent (ai_confidence r))
      (mockRecognitionMultiple imageUri)
  = firstn (List.length (mockRecognitionMultiple imageUri))
           [of_Z 95; of_Z 80; of_Z 65].
Proof.
  rewrite mock_unfolded, length_map, length_seq, map_map.
  pose proof (hashOf_nonneg imageUri) as Hh.
  assert (Hp : forall i, (i < 3)%nat ->
                 UploadScreen.percent
                   (ai_confidence (resultAt (hashOf imageUri) (Z.of_nat i)))
                 = nth i [of_Z 95; of_Z 80; of_Z 65] NaN).
  { intros i Hi. rewrite (resultAt_confidence _ i Hi).
    destruct i as [|[|[|i]]]; [vm_compute; reflexivity ..| lia]. }
  assert (Hm : hashOf imageUri mod 3 = 0 \/ hashOf imageUri mod 3 = 1
               \/ hashOf imageUri mod 3 = 2)
    by (pose proof (Z.mod_pos_bound (hashOf imageUri) 3); lia).
  destruct Hm as [-> | [-> | ->]]; cbn [Z.add Z.to_nat Pos.to_nat Pos.iter_op
                                         Nat.add seq map firstn];
    rewrite ?(Hp 0%nat), ?(Hp 1%nat), ?(Hp 2%nat) by lia; reflexivity.
Qed.

(* ===================================================================== *)
(** * Further properties: the background remover *)
(* ===================================================================== *)

Section RemoveBgFacts.

Context {World : Type} (P : Platform World).

(** The matting key is configured. *)
Lemma removeBg_key_test :
  truthy (REMOVE_BG_API_KEY P) = true ->
  REMOVE_BG_API_KEY P <> removeBgPlaceholder ->
  negb (truthy (REMOVE_BG_API_KEY P))
  || (REMOVE_BG_API_KEY P =? removeBgPlaceholder)%string = false.
Proof.
  intros Hkey Hph. apply String.eqb_neq in Hph. now rewrite Hkey, Hph.
Qed.

Lemma removeBackground_configured imageUri w :
  truthy (REMOVE_BG_API_KEY P) = true ->
  REMOVE_BG_API_KEY P <> removeBgPlaceholder ->
  removeBackground P imageUri w
  = match removeBackgroundWithRemoveBg P imageUri w with
    | (Resolved uri, w') => (Resolved uri, w')
    | (Rejected _, w') => (Rejected (Error "背景移除失败"), w')
    end.
Proof.
  intros Hkey Hph. apply String.eqb_neq in Hph.
  unfold removeBackground, tryCatch, throw. rewrite Hkey, Hph. cbn [negb andb].
  now destruct (removeBackgroundWithRemoveBg P imageUri w) as [[uri|e] w'].
Qed.

Lemma removeBackgroundWithRemoveBg_handler imageUri w e w' :
  truthy (REMOVE_BG_API_KEY P) = true ->
  REMOVE_BG_API_KEY P <> removeBgPlaceholder ->
  removeBgRequest P (REMOVE_BG_API_KEY P) imageUri w = (Rejected e, w') ->
  removeBackgroundWithRemoveBg P imageUri w
  = (Rejected (if (message e =? "Request timeout")%string
               then Error "请求超时，请检查网络连接"
               else if includes (message e) "API" then e
                    else Error "背景移除失败，请稍后重试"), w').
Proof.
  intros Hkey Hph Hreq. unfold removeBackgroundWithRemoveBg. cbv zeta.
  rewrite (removeBg_key_test Hkey Hph).
  rewrite (tryCatch_rejected _ _ _ _ _ Hreq). unfold throw.
  destruct (message e =? "Request timeout")%string; [reflexivity|].
  now destruct (includes (message e) "API").
Qed.

End RemoveBgFacts.

(** X6.  Without a matting key (empty or the placeholder),
    [removeBackground] resolves with its input unchanged; the only call
    it makes is the timer of two seconds. *)
Theorem X6_unconfigured_removal_is_the_identity :
  forall (World : Type) (P : Platform World) (imageUri : string) (w : World),
    REMOVE_BG_API_KEY P = "" \/ REMOVE_BG_API_KEY P = "YOUR_REMOVE_BG_API_KEY" ->
    removeBackground P imageUri w = (Resolved imageUri, setTimeout P 2000 w).
Proof.
  intros World P imageUri w Hkey.
  unfold removeBackground, mockBackgroundRemoval, sleep. run_async.
  destruct Hkey as [-> | ->]; reflexivity.
Qed.

Lemma X6_unconfigured_removal_is_the_identity_witness :
  let P := Device.device "vision-key" "" (Device.answer []) timerFired onerror
                         Device.written in
  REMOVE_BG_API_KEY P = ""
  /\ removeBackground P Device.cropped 0 = (Resolved Device.cropped, 2000).
Proof.
  intros P. split; [reflexivity|].
  exact (X6_unconfigured_removal_is_the_identity
           Device.World P Device.cropped 0 (or_introl eq_refl)).
Defined.

(** X7.  Every error [removeBackground] throws is the one error
    "背景移除失败".  In particular a request that runs into the timer of
    thirty seconds, which [removeBackgroundWithRemoveBg] reports with a
    text of its own, reaches the caller of [removeBackground] as that
    same general error. *)
Theorem X7_removal_errors_are_all_alike :
  forall (World : Type) (P : Platform World) (imageUri : string) (w : World),
    (forall e w',
        removeBackground P imageUri w = (Rejected e, w') ->
        e = Error "背景移除失败")
    /\ (forall w1,
           truthy (REMOVE_BG_API_KEY P) = true ->
           REMOVE_BG_API_KEY P <> "YOUR_REMOVE_BG_API_KEY" ->
           fetchRemoveBg P (REMOVE_BG_API_KEY P) imageUri 30000 w = (timerFired, w1) ->
           removeBackgroundWithRemoveBg P imageUri w
           = (Rejected (Error "请求超时，请检查网络连接"), w1)
           /\ removeBackground P imageUri w
              = (Rejected (Error "背景移除失败"), w1)).
Proof.
  intros World P imageUri w. split.
  - intros e w'. unfold removeBackground, tryCatch, throw.
    match goal with
    | |- match ?run with _ => _ end = _ -> _ => destruct run as [[uri|e0] w0]
    end; [discriminate|].
    now intros [= <- _].
  - intros w1 Hkey Hph Hrace.
    assert (Hreq : removeBgRequest P (REMOVE_BG_API_KEY P) imageUri w
                   = (Rejected (Error "Request timeout"), w1)).
    { unfold removeBgRequest. cbv zeta. unfold bind. now rewrite Hrace. }
    assert (Hreal : removeBackgroundWithRemoveBg P imageUri w
                    = (Rejected (Error "请求超时，请检查网络连接"), w1))
      by (rewrite (removeBackgroundWithRemoveBg_handler P _ _ _ _ Hkey Hph Hreq);
          reflexivity).
    split; [exact Hreal|].
    now rewrite (removeBackground_configured P _ _ Hkey Hph), Hreal.
Qed.

Lemma X7_removal_errors_are_all_alike_witness :
  let P := Device.mattingTimesOut [] in
  removeBackgroundWithRemoveBg P Device.cropped 0
  = (Rejected (Error "请求超时，请检查网络连接"), 0)
  /\ removeBackground P Device.cropped 0 = (Rejected (Error "背景移除失败"), 0)
  /\ Error "背景移除失败" = Error "背景移除失败".
Proof.
  intros P.
  destruct (X7_removal_errors_are_all_alike Device.World P Device.cropped 0)
    as [Hall Htimeout].
  destruct (Htimeout 0 eq_refl ltac:(discriminate) eq_refl) as [H1 H2].
  split; [exact H1|]. split; [exact H2|].
  exact (Hall _ _ H2).
Defined.



Section TransparentFacts.







End TransparentFacts.



(* ===================================================================== *)
(** * Further properties: the segmentation service *)
(* ===================================================================== *)

Section MoreSegmentationFacts.

Context {World : Type} (P : Platform World).

(** One turn of the loop, with what it knows of the item it pushes. *)
Lemma processObject_picks imageUri imageWidth imageHeight items obj w items' w' :
  processObject P imageUri imageWidth imageHeight items obj w = (Resolved items', w') ->
  items' = items
  \/ exists item (s : JsonNumber),
       items' = (items ++ [item])%list
       /\ score obj = Some s /\ lt s CONFIDENCE_THRESHOLD = false
       /\ Item.confidence item = s
       /\ clothingCandidate obj imageWidth imageHeight
                            (Item.category item) (Item.boundingBox item).
Proof.
  unfold processObject.
  destruct (score obj) as [s|]; [|discriminate].
  destruct (lt s CONFIDENCE_THRESHOLD) eqn:Hlt; [intros [= <- <-]; now left|].
  destruct (name obj) as [label|] eqn:Hn; [|discriminate].
  destruct (mapGoogleLabelToCategory label) as [category|] eqn:Hc;
    [|intros [= <- <-]; now left].
  destruct (normalizedVertices obj) as [vertices|] eqn:Hv; [|discriminate].
  destruct (nth_error vertices 0) as [v0|] eqn:H0; [|discriminate].
  destruct (nth_error vertices 2) as [v2|] eqn:H2; [|discriminate].
  destruct (invalidDimensions (pixelBox v0 v2 imageWidth imageHeight)) eqn:Hbox;
    [intros [= <- <-]; now left|].
  assert (Hcand : forall uri,
             clothingCandidate obj imageWidth imageHeight
               (Item.category (itemOf category uri
                                 (pixelBox v0 v2 imageWidth imageHeight) s))
               (Item.boundingBox (itemOf category uri
                                    (pixelBox v0 v2 imageWidth imageHeight) s))).
  { intros uri. split.
    - now exists label.
    - exists vertices, v0, v2. repeat split; try assumption.
      unfold toPixelRect. cbn [itemOf Item.boundingBox]. now rewrite Hbox. }
  run_async.
  destruct (cropImageRegion P imageUri _ w) as [[croppedUri|e] w1];
    [|intros [= <- <-]; now left].
  destruct (removeBackground P croppedUri w1) as [[transparentUri|e] w2];
    intros [= <- <-]; right.
  - exists (itemOf category transparentUri (pixelBox v0 v2 imageWidth imageHeight) s), s.
    split; [reflexivity|]. split; [reflexivity|]. split; [exact Hlt|].
    split; [reflexivity | apply Hcand].
  - exists (itemOf category croppedUri (pixelBox v0 v2 imageWidth imageHeight) s), s.
    split; [reflexivity|]. split; [reflexivity|]. split; [exact Hlt|].
    split; [reflexivity | apply Hcand].
Qed.

Lemma forOf_picks imageUri imageWidth imageHeight objects :
  forall items w items' w',
    forOf P imageUri imageWidth imageHeight objects items w = (Resolved items', w') ->
    exists pushed,
      items' = (items ++ pushed)%list
      /\ pickedFrom imageWidth imageHeight pushed objects.
Proof.
  induction objects as [|obj objects IH]; intros items w items' w' H.
  - cbn in H. injection H as <- <-. exists []. rewrite app_nil_r.
    split; [reflexivity | constructor].
  - cbn [forOf] in H. apply bind_inv in H as (items1 & w1 & Hobj & Hrest).
    destruct (IH _ _ _ _ Hrest) as (pushed & -> & Hpicked).
    apply processObject_picks in Hobj
      as [-> | (item & s & -> & Hs & Hlt & Hc & Hcand)].
    + exists pushed. split; [reflexivity | now constructor].
    + exists (item :: pushed). rewrite <- app_assoc. split; [reflexivity|].
      now apply (pickedTake _ _ item obj objects pushed s).
Qed.

Lemma pickedFrom_length imageWidth imageHeight items objects :
  pickedFrom imageWidth imageHeight items objects ->
  (List.length items <= List.length objects)%nat.
Proof. induction 1; cbn [List.length]; lia. Qed.

(** A detection without a score stops the loop, wherever it stands. *)
Lemma forOf_unscored imageUri imageWidth imageHeight objects obj :
  In obj objects -> score obj = None ->
  forall items w,
  exists e w', forOf P imageUri imageWidth imageHeight objects items w
               = (Rejected e, w').
Proof.
  intros Hin Hscore.
  induction objects as [|first objects IH]; [contradiction|].
  intros items w. cbn [forOf]. unfold bind.
  destruct (processObject P imageUri imageWidth imageHeight items first w)
    as [[items1|e] w1] eqn:Hfirst; [|now exists e, w1].
  destruct Hin as [-> | Hin]; [|now apply IH].
  unfold processObject in Hfirst. rewrite Hscore in Hfirst. discriminate.
Qed.

Lemma configured_key_test :
  configured P ->
  negb (truthy (GOOGLE_VISION_API_KEY P))
  || (GOOGLE_VISION_API_KEY P =? visionPlaceholder)%string = false.
Proof. intros [Hkey Hph]. apply String.eqb_neq in Hph. now rewrite Hkey, Hph. Qed.

(** When the loop throws, so does the real path. *)
Lemma segmentWithGoogleVision_loop_rejects imageUri w imageWidth imageHeight
      annotations w1 e w2 :
  configured P ->
  annotate P (GOOGLE_VISION_API_KEY P) imageUri w
  = (Resolved (imageWidth, imageHeight, annotations), w1) ->
  collectItems P imageUri imageWidth imageHeight annotations w1 = (Rejected e, w2) ->
  segmentWithGoogleVision P imageUri w = (Rejected e, w2).
Proof.
  intros Hconf Ha Hc. unfold segmentWithGoogleVision. cbv zeta.
  rewrite (configured_key_test Hconf), tryCatch_rethrow.
  rewrite (bind_resolved _ _ _ _ _ Ha). cbn iota beta.
  now rewrite (bind_rejected _ _ _ _ _ Hc).
Qed.

Lemma removeBackground_unconfigured imageUri w :
  REMOVE_BG_API_KEY P = "" \/ REMOVE_BG_API_KEY P = removeBgPlaceholder ->
  removeBackground P imageUri w = (Resolved imageUri, setTimeout P 2000 w).
Proof.
  intros Hkey. unfold removeBackground, mockBackgroundRemoval, sleep. run_async.
  destruct Hkey as [-> | ->]; reflexivity.
Qed.

End MoreSegmentationFacts.

(** X10.  [segmentClothing] never throws and never resolves with an
    empty list: it always resolves with one item at least, so the error
    "服装分割失败" of its outer catch cannot occur. *)
Theorem X10_segmentClothing_always_resolves :
  forall (World : Type) (P : Platform World) (imageUri : string) (w : World),
  exists item rest w',
    segmentClothing P imageUri w = (Resolved (item :: rest), w').
Proof.
  intros World P imageUri w. rewrite segmentClothing_run.
  destruct (segmentWithGoogleVision P imageUri w) as [[items|e] w1] eqn:Hreal.
  - pose proof (proj1 (segmentWithGoogleVision_resolved P imageUri w items w1 Hreal))
      as Hne.
    destruct items as [|item rest]; [contradiction|].
    now exists item, rest, w1.
  - unfold mockItems. eexists. eexists. eexists. reflexivity.
Qed.

(** X11.  The items the real path resolves with stem from the
    detections of the answer, one item at most per detection and in the
    order of the sorted detections: each item carries the category its
    detection's label maps to, the pixel rectangle of its detection's
    quadrilateral, whose width and height are not rejected, and its
    detection's score, which is not below the floor.  So there are never
    more items than detections. *)
Theorem X11_items_stem_from_detections :
  forall (World : Type) (P : Platform World) (imageUri : string)
         (w w' : World) (items : list Item.t),
    segmentWithGoogleVision P imageUri w = (Resolved items, w') ->
    exists imageWidth imageHeight annotations w1 objects,
      annotate P (GOOGLE_VISION_API_KEY P) imageUri w
      = (Resolved (imageWidth, imageHeight, annotations), w1)
      /\ localizedObjectAnnotations annotations = Some objects
      /\ pickedFrom imageWidth imageHeight items (JsArray.sort byScore objects)
      /\ (List.length items <= List.length objects)%nat.
Proof.
  intros World P imageUri w w' items H.
  apply segmentWithGoogleVision_resolved in H
    as (Hne & imageWidth & imageHeight & annotations & w1 & Ha & Hc).
  unfold collectItems in Hc.
  destruct (localizedObjectAnnotations annotations) as [objects|] eqn:Hobjs.
  - destruct (forOf_picks P _ _ _ _ _ _ _ _ Hc) as (pushed & -> & Hpicked).
    cbn [app] in *.
    exists imageWidth, imageHeight, annotations, w1, objects.
    repeat split; try assumption.
    rewrite <- (Permutation_length (sort_permutation byScore objects)).
    exact (pickedFrom_length _ _ _ _ Hpicked).
  - injection Hc as <- <-. contradiction.
Qed.

Lemma X11_items_stem_from_detections_witness :
  let P := Device.mattingTimesOut Device.personAndDress in
  let items := [itemOf dress Device.cropped
                       {| Box.x := of_Z 100; Box.y := of_Z 200;
                          Box.width := of_Z 500; Box.height := of_Z 499 |}
                       (literal 8 1)] in
  segmentWithGoogleVision P Device.outfit 0 = (Resolved items, 0)
  /\ exists imageWidth imageHeight objects,
       pickedFrom imageWidth imageHeight items (JsArray.sort byScore objects)
       /\ (List.length items <= List.length objects)%nat.
Proof.
  intros P items.
  assert (H : segmentWithGoogleVision P Device.outfit 0 = (Resolved items, 0))
    by (vm_compute; reflexivity).
  split; [exact H|].
  destruct (X11_items_stem_from_detections Device.World P Device.outfit 0 0 items H)
    as (imageWidth & imageHeight & annotations & w1 & objects & _ & _ & Hp & Hl).
  exists imageWidth, imageHeight, objects. split; [exact Hp | exact Hl].
Defined.

(** X13.  A candidate whose crop fails is left out and nothing else is
    lost: the turn of the loop resolves with the items collected so far,
    and the loop goes on with the next detection. *)
Theorem X13_crop_failure_skips_the_candidate :
  forall (World : Type) (P : Platform World) imageUri imageWidth imageHeight
         items obj (s : JsonNumber) category box rest w e w1,
    score obj = Some s -> lt s CONFIDENCE_THRESHOLD = false ->
    clothingCandidate obj imageWidth imageHeight category box ->
    cropImageRegion P imageUri box w = (Rejected e, w1) ->
    processObject P imageUri imageWidth imageHeight items obj w = (Resolved items, w1)
    /\ forOf P imageUri imageWidth imageHeight (obj :: rest) items w
       = forOf P imageUri imageWidth imageHeight rest items w1.
Proof.
  intros World P imageUri imageWidth imageHeight items obj s category box rest
         w e w1 Hs Hlt
         [(label & Hn & Hc) (vertices & v0 & v2 & Hv & H0 & H2 & Hbox)] Hcrop.
  apply toPixelRect_Some in Hbox as [-> Hvalid].
  assert (Hobj : processObject P imageUri imageWidth imageHeight items obj w
                 = (Resolved items, w1)).
  { unfold processObject. rewrite Hs, Hlt, Hn, Hc, Hv, H0, H2, Hvalid.
    run_async. now rewrite Hcrop. }
  split; [exact Hobj|].
  cbn [forOf]. now rewrite (bind_resolved _ _ _ _ _ Hobj).
Qed.

Lemma X13_crop_failure_skips_the_candidate_witness :
  let P := Device.cropFails (Device.mattingWorks Device.personAndDress Device.written) in
  let redDress := Device.localized "Red dress" (Device.jsonNumber 8 1 eq_refl)
                                   (Device.quad 1 2 6 7) in
  processObject P Device.outfit (of_Z 1000) (of_Z 1000) [] redDress 0
  = (Resolved [], 0)
  /\ segmentClothing P Device.outfit 0 = (Resolved (mockItems Device.outfit), 2000).
Proof.
  intros P redDress. split; [|vm_compute; reflexivity].
  refine (proj1 (X13_crop_failure_skips_the_candidate
                   Device.World P Device.outfit (of_Z 1000) (of_Z 1000) [] redDress
                   (Device.jsonNumber 8 1 eq_refl) dress
                   {| Box.x := of_Z 100; Box.y := of_Z 200;
                      Box.width := of_Z 500; Box.height := of_Z 499 |}
                   [] 0 (Error "Invalid crop options") 0 eq_refl _ _ _)).
  - vm_compute; reflexivity.
  - split.
    + exists "Red dress". split; [reflexivity | vm_compute; reflexivity].
    + exists (Device.quad 1 2 6 7), (Device.vertex 1 2), (Device.vertex 6 7).
      repeat split; vm_compute; reflexivity.
  - vm_compute; reflexivity.
Defined.

Section ClampFacts.

(** [Math.max(a, b)] is NaN or at least [a], for an [a] that is a
    number equal to itself. *)
Lemma max_at_least (a b : number) :
  SFcompare a a = Some Eq ->
  is_nan (max a b) = true \/ ge (max a b) a = true.
Proof.
  intros Ha. unfold max, ge, SFleb.
  destruct (SFcompare a b) as [[ | | ]|] eqn:Hc.
  - destruct a as [[|]| | |]; try (right; now rewrite Ha).
    right. now rewrite Hc.
  - right. now rewrite Hc.
  - right. now rewrite Ha.
  - now left.
Qed.

(** Rounding never makes a NaN: the shifted mantissa of a mantissa that
    is not negative is not negative. *)
Lemma shr_1_nonneg mrs : 0 <= shr_m mrs -> 0 <= shr_m (shr_1 mrs).
Proof.
  destruct mrs as [m r s]. cbn [shr_m shr_1].
  destruct m as [|[p|p|]|p]; cbn [shr_m]; lia.
Qed.

Lemma iter_pos_shr_1_nonneg (p : positive) mrs :
  0 <= shr_m mrs -> 0 <= shr_m (iter_pos shr_1 p mrs).
Proof.
  revert mrs. induction p as [p IH|p IH|]; intros mrs H; cbn [iter_pos].
  - now apply IH, IH, shr_1_nonneg.
  - now apply IH, IH.
  - now apply shr_1_nonneg.
Qed.

Lemma shr_fexp_nonneg m e l :
  0 <= m -> 0 <= shr_m (fst (shr_fexp prec emax m e l)).
Proof.
  intros Hm. unfold shr_fexp, shr.
  assert (H0 : 0 <= shr_m (shr_record_of_loc m l))
    by (destruct l as [|[ | | ]]; exact Hm).
  destruct (fexp prec emax (Zdigits2 m + e) - e); cbn [fst]; try exact H0.
  now apply iter_pos_shr_1_nonneg.
Qed.

Lemma round_nearest_even_nonneg m l : 0 <= m -> 0 <= round_nearest_even m l.
Proof.
  intros Hm. unfold round_nearest_even.
  destruct l as [|[ | | ]]; try destruct (Z.even m); lia.
Qed.

Lemma binary_round_aux_not_nan s m e l :
  0 <= m -> is_nan (binary_round_aux prec emax s m e l) = false.
Proof.
  intros Hm. unfold binary_round_aux.
  pose proof (shr_fexp_nonneg m e l Hm) as H1.
  destruct (shr_fexp prec emax m e l) as [mrs' e'] eqn:E1. cbn [fst] in H1.
  pose proof (shr_fexp_nonneg _ e' loc_Exact
                (round_nearest_even_nonneg _ (loc_of_shr_record mrs') H1)) as H2.
  destruct (shr_fexp prec emax (round_nearest_even _ _) e' loc_Exact)
    as [mrs'' e''] eqn:E2. cbn [fst] in H2.
  destruct (shr_m mrs'') as [|p|p]; [reflexivity | | lia].
  now destruct (e'' <=? emax - prec).
Qed.

(** An integer is never turned into NaN. *)
Lemma of_Z_not_nan z : is_nan (of_Z z) = false.
Proof.
  unfold of_Z, binary_normalize, binary_round.
  destruct z as [|p|p]; [reflexivity | |];
    destruct (shl_align p 0 _) as [mz ez];
    apply binary_round_aux_not_nan; lia.
Qed.

(** [Math.floor] gives NaN for NaN alone. *)
Lemma floor_nan a : is_nan (floor a) = is_nan a.
Proof.
  destruct a as [s|s| |s m e]; try reflexivity.
  cbn [floor is_nan]. destruct (0 <=? e); [reflexivity | apply of_Z_not_nan].
Qed.

(** [Math.max(bound, Math.floor(side))] for a bound that is a number
    other than -0: NaN for a side that is NaN, the floor of the side
    when that is above the bound, and the bound otherwise. *)
Lemma max_floor (bound side : number) :
  SFcompare bound bound = Some Eq ->
  bound <> S754_zero true ->
  max bound (floor side)
  = if is_nan side then NaN
    else if gt (floor side) bound then floor side else bound.
Proof.
  intros Heq Hzero. rewrite <- (floor_nan side).
  unfold max, gt, SFltb.
  destruct (is_nan (floor side)) eqn:Hnan.
  - destruct (floor side); try discriminate. now destruct bound.
  - destruct (SFcompare bound (floor side)) as [[ | | ]|] eqn:Hc;
      try reflexivity.
    + destruct bound as [[|]|?| |? ? ?]; try reflexivity. now elim Hzero.
    + destruct bound, (floor side); discriminate.
Qed.

Lemma max_floor_bounds (bound side : number) :
  SFcompare bound bound = Some Eq ->
  bound <> S754_zero true ->
  is_nan (max bound (floor side)) = is_nan side
  /\ (is_nan side = false -> ge (max bound (floor side)) bound = true).
Proof.
  intros Heq Hzero.
  assert (Hnan : is_nan (max bound (floor side)) = is_nan side).
  { rewrite (max_floor bound side Heq Hzero).
    destruct (is_nan side) eqn:Hs; [reflexivity|].
    destruct (gt (floor side) bound).
    - now rewrite floor_nan.
    - now destruct bound. }
  split; [exact Hnan|].
  intros Hs. destruct (max_at_least bound (floor side) Heq) as [H | H];
    [congruence | exact H].
Qed.

End ClampFacts.

(** X14.  Whatever the rectangle, the region [cropImageRegion] asks the
    image manipulator to crop is the rectangle clamped, side by side:
    a side that is NaN gives NaN, and no other side does; of a side
    that is a number the floor is taken, and a floor that is not above
    the bound (0 for the origin, 1 for the width and the height) is
    replaced by the bound.  So the origin of a rectangle of numbers is
    never negative and its width and height are never below 1.  The
    image is asked for as PNG, and an error of the manipulator is
    passed on. *)
Theorem X14_crop_region_is_clamped :
  forall (World : Type) (P : Platform World) (imageUri : string) (box : Box.t)
         (w : World),
  exists region,
    cropImageRegion P imageUri box w
    = match manipulateAsync P imageUri [crop region]
                            {| format := PNG; compress := Some (literal 9 1) |} w with
      | (Resolved manipResult, w') => (Resolved (result_uri manipResult), w')
      | (Rejected e, w') => (Rejected e, w')
      end
    /\ (originX region
        = (if is_nan (Box.x box) then NaN
           else if gt (floor (Box.x box)) (of_Z 0) then floor (Box.x box)
                else of_Z 0)
        /\ originY region
           = (if is_nan (Box.y box) then NaN
              else if gt (floor (Box.y box)) (of_Z 0) then floor (Box.y box)
                   else of_Z 0)
        /\ crop_width region
           = (if is_nan (Box.width box) then NaN
              else if gt (floor (Box.width box)) (of_Z 1) then floor (Box.width box)
                   else of_Z 1)
        /\ crop_height region
           = (if is_nan (Box.height box) then NaN
              else if gt (floor (Box.height box)) (of_Z 1) then floor (Box.height box)
                   else of_Z 1))
    /\ (is_nan (originX region) = is_nan (Box.x box)
        /\ is_nan (originY region) = is_nan (Box.y box)
        /\ is_nan (crop_width region) = is_nan (Box.width box)
        /\ is_nan (crop_height region) = is_nan (Box.height box))
    /\ (is_nan (Box.x box) = false -> ge (originX region) (of_Z 0) = true)
    /\ (is_nan (Box.y box) = false -> ge (originY region) (of_Z 0) = true)
    /\ (is_nan (Box.width box) = false -> ge (crop_width region) (of_Z 1) = true)
    /\ (is_nan (Box.height box) = false -> ge (crop_height region) (of_Z 1) = true).
Proof.
  intros World P imageUri box w.
  exists {| originX := max pos_zero (floor (Box.x box));
            originY := max pos_zero (floor (Box.y box));
            crop_width := max (of_Z 1) (floor (Box.width box));
            crop_height := max (of_Z 1) (floor (Box.height box)) |}.
  assert (H0 : SFcompare pos_zero pos_zero = Some Eq) by reflexivity.
  assert (H1 : SFcompare (of_Z 1) (of_Z 1) = Some Eq) by reflexivity.
  assert (Z0 : pos_zero <> S754_zero true) by discriminate.
  assert (Z1 : of_Z 1 <> S754_zero true) by discriminate.
  split.
  { unfold cropImageRegion. cbv zeta. rewrite tryCatch_rethrow. run_async.
    now destruct (manipulateAsync P imageUri _ _ w) as [[r|e] w']. }
  cbn [originX originY crop_width crop_height].
  change (of_Z 0) with pos_zero.
  split.
  { repeat split; apply max_floor; assumption. }
  split.
  { repeat split; apply max_floor_bounds; assumption. }
  repeat split; apply max_floor_bounds; assumption.
Qed.

Lemma X14_crop_region_is_clamped_witness :
  let box := {| Box.x := literal (-35) 1; Box.y := literal 25 1;
                Box.width := literal 4 1; Box.height := literal 4999 1 |} in
  exists region,
    cropImageRegion (Device.mattingTimesOut []) Device.outfit box 0
    = (Resolved Device.cropped, 0)
    /\ region = {| originX := of_Z 0; originY := of_Z 2;
                   crop_width := of_Z 1; crop_height := of_Z 499 |}
    /\ ge (originX region) (of_Z 0) = true
    /\ ge (crop_width region) (of_Z 1) = true.
Proof.
  intros box.
  destruct (X14_crop_region_is_clamped Device.World (Device.mattingTimesOut [])
              Device.outfit box 0)
    as (region & Hrun & (Hx & Hy & Hw & Hh) & _ & Hx0 & _ & Hw1 & _).
  exists region.
  split; [rewrite Hrun; reflexivity|].
  split.
  { destruct region as [rx ry rw rh].
    cbn [originX originY crop_width crop_height] in Hx, Hy, Hw, Hh.
    rewrite Hx, Hy, Hw, Hh. vm_compute. reflexivity. }
  split; [exact (Hx0 eq_refl) | exact (Hw1 eq_refl)].
Defined.

(** X15.  One detection without a score spoils the whole answer: the
    real path throws, whatever the other detections are, and
    [segmentClothing] resolves with the mock items. *)
Theorem X15_unscored_detection_gives_mock_items :
  forall (World : Type) (P : Platform World) (imageUri : string) (w w1 : World)
         imageWidth imageHeight annotations objects obj,
    configured P ->
    annotate P (GOOGLE_VISION_API_KEY P) imageUri w
    = (Resolved (imageWidth, imageHeight, annotations), w1) ->
    localizedObjectAnnotations annotations = Some objects ->
    In obj objects -> score obj = None ->
    exists w', segmentClothing P imageUri w = (Resolved (mockItems imageUri), w').
Proof.
  intros World P imageUri w w1 imageWidth imageHeight annotations objects obj
         Hconf Ha Hobjs Hin Hscore.
  assert (Hsorted : In obj (JsArray.sort byScore objects))
    by (apply (Permutation_in _ (Permutation_sym (sort_permutation byScore objects)));
        exact Hin).
  destruct (forOf_unscored P imageUri imageWidth imageHeight _ obj Hsorted Hscore [] w1)
    as (e & w2 & Hloop).
  assert (Hc : collectItems P imageUri imageWidth imageHeight annotations w1
               = (Rejected e, w2)) by (unfold collectItems; now rewrite Hobjs).
  exists (setTimeout P 2000 w2).
  apply (rejected_gives_mock P imageUri w e w2).
  exact (segmentWithGoogleVision_loop_rejects P imageUri w _ _ _ w1 e w2 Hconf Ha Hc).
Qed.

Lemma X15_unscored_detection_gives_mock_items_witness :
  let objects := [ Device.localized "Red dress" (Device.jsonNumber 8 1 eq_refl)
                                    (Device.quad 1 2 6 7);
                   Device.unscored "Shirt" (Device.quad 1 1 5 5) ] in
  let P := Device.mattingWorks objects Device.written in
  exists w', segmentClothing P Device.outfit 0
             = (Resolved (mockItems Device.outfit), w').
Proof.
  intros objects P.
  refine (X15_unscored_detection_gives_mock_items
            Device.World P Device.outfit 0 0 (of_Z 1000) (of_Z 1000)
            {| localizedObjectAnnotations := Some objects |} objects
            (Device.unscored "Shirt" (Device.quad 1 1 5 5)) _ _ eq_refl _ eq_refl).
  - split; [reflexivity | discriminate].
  - vm_compute; reflexivity.
  - right. now left.
Defined.

(** X16.  An answer without detections, its list absent or empty, makes
    the real path throw its no-results error right after the answer, and
    [segmentClothing] resolve with the mock items two seconds later. *)
Theorem X16_no_detections_give_mock_items :
  forall (World : Type) (P : Platform World) (imageUri : string) (w w1 : World)
         imageWidth imageHeight annotations,
    configured P ->
    annotate P (GOOGLE_VISION_API_KEY P) imageUri w
    = (Resolved (imageWidth, imageHeight, annotations), w1) ->
    localizedObjectAnnotations annotations = None
    \/ localizedObjectAnnotations annotations = Some [] ->
    segmentWithGoogleVision P imageUri w
    = (Rejected (Error "未识别到服装物品，请尝试其他照片"), w1)
    /\ segmentClothing P imageUri w
       = (Resolved (mockItems imageUri), setTimeout P 2000 w1).
Proof.
  intros World P imageUri w w1 imageWidth imageHeight annotations Hconf Ha Hnone.
  apply (nothing_collected_gives_mock P imageUri w imageWidth imageHeight
           annotations w1 w1 Hconf Ha).
  unfold collectItems. destruct Hnone as [-> | ->]; reflexivity.
Qed.

Lemma X16_no_detections_give_mock_items_witness :
  let P := Device.mattingWorks [] Device.written in
  segmentWithGoogleVision P Device.outfit 0
  = (Rejected (Error "未识别到服装物品，请尝试其他照片"), 0)
  /\ segmentClothing P Device.outfit 0 = (Resolved (mockItems Device.outfit), 2000).
Proof.
  intros P.
  refine (X16_no_detections_give_mock_items
            Device.World P Device.outfit 0 0 (of_Z 1000) (of_Z 1000)
            {| localizedObjectAnnotations := Some [] |} _ _ (or_intror eq_refl)).
  - split; [reflexivity | discriminate].
  - vm_compute; reflexivity.
Defined.

(** X17.  Without a matting key, an accepted candidate that is cropped
    gets the plain crop as its image, and its turn of the loop takes the
    two seconds of the mock background removal. *)
Theorem X17_unconfigured_matting_keeps_the_crop :
  forall (World : Type) (P : Platform World) imageUri imageWidth imageHeight
         items obj (s : JsonNumber) category box w croppedUri w1,
    REMOVE_BG_API_KEY P = "" \/ REMOVE_BG_API_KEY P = "YOUR_REMOVE_BG_API_KEY" ->
    score obj = Some s -> lt s CONFIDENCE_THRESHOLD = false ->
    clothingCandidate obj imageWidth imageHeight category box ->
    cropImageRegion P imageUri box w = (Resolved croppedUri, w1) ->
    processObject P imageUri imageWidth imageHeight items obj w
    = (Resolved (items ++ [ {| Item.category := category;
                               Item.imageUri := croppedUri;
                               Item.boundingBox := box;
                               Item.confidence := s |} ])%list,
       setTimeout P 2000 w1).
Proof.
  intros World P imageUri imageWidth imageHeight items obj s category box w
         croppedUri w1 Hkey Hs Hlt Hcand Hcrop.
  rewrite (processObject_cropped P _ _ _ _ _ s category box w croppedUri w1
             Hs Hlt Hcand Hcrop).
  now rewrite (removeBackground_unconfigured P croppedUri w1 Hkey).
Qed.

Lemma X17_unconfigured_matting_keeps_the_crop_witness :
  let P := Device.device "vision-key" "" (Device.answer Device.personAndDress)
                         timerFired onerror Device.written in
  let box := {| Box.x := of_Z 100; Box.y := of_Z 200;
                Box.width := of_Z 500; Box.height := of_Z 499 |} in
  let redDress := Device.localized "Red dress" (Device.jsonNumber 8 1 eq_refl)
                                   (Device.quad 1 2 6 7) in
  processObject P Device.outfit (of_Z 1000) (of_Z 1000) [] redDress 0
  = (Resolved [itemOf dress Device.cropped box (literal 8 1)], 2000).
Proof.
  intros P box redDress.
  refine (X17_unconfigured_matting_keeps_the_crop
            Device.World P Device.outfit (of_Z 1000) (of_Z 1000) [] redDress
            (Device.jsonNumber 8 1 eq_refl) dress box 0 Device.cropped 0
            (or_introl eq_refl) eq_refl _ _ _).
  - vm_compute; reflexivity.
  - split.
    + exists "Red dress". split; [reflexivity | vm_compute; reflexivity].
    + exists (Device.quad 1 2 6 7), (Device.vertex 1 2), (Device.vertex 6 7).
      repeat split; vm_compute; reflexivity.
  - vm_compute; reflexivity.
Defined.

(* ===================================================================== *)
(** * Further properties: the category mapper *)
(* ===================================================================== *)

Section MapperFacts.

Lemma find_first {A : Type} (f : A -> bool) (l : list A) (x : A) :
  find f l = Some x
  <-> exists pre post,
        l = (pre ++ x :: post)%list /\ f x = true
        /\ Forall (fun y => f y = false) pre.
Proof.
  split.
  - induction l as [|a l IH]; cbn [find]; [discriminate|].
    destruct (f a) eqn:Ha.
    + intros [= ->]. exists [], l. repeat split; [assumption | constructor].
    + intros H. destruct (IH H) as (pre & post & -> & Hx & Hpre).
      exists (a :: pre), post. repeat split; [assumption | now constructor].
  - intros (pre & post & -> & Hx & Hpre).
    induction Hpre as [|a pre Ha _ IH]; cbn [app find].
    + now rewrite Hx.
    + now rewrite Ha.
Qed.

Lemma existsb_false {A : Type} (f : A -> bool) (l : list A) :
  existsb f l = false <-> Forall (fun y => f y = false) l.
Proof.
  induction l as [|a l IH]; cbn [existsb].
  - split; [constructor | reflexivity].
  - rewrite orb_false_iff, IH. split.
    + intros [Ha Hl]. now constructor.
    + intros H. inversion H; subst. now split.
Qed.

Lemma lowerCodeUnit_idempotent (c : ascii) :
  lowerCodeUnit (lowerCodeUnit c) = lowerCodeUnit c.
Proof. destruct c as [[] [] [] [] [] [] [] []]; reflexivity. Qed.

Lemma toLowerCase_idempotent (s : string) :
  toLowerCase (toLowerCase s) = toLowerCase s.
Proof.
  induction s as [|c s IH]; cbn [toLowerCase]; [reflexivity|].
  now rewrite lowerCodeUnit_idempotent, IH.
Qed.

End MapperFacts.

(** X18.  The category mapper does not see the case of the letters of a
    label: a label and its lower-cased form map alike, and so do any
    two labels with the same lower-cased form. *)
Theorem X18_mapper_ignores_case :
  (forall label,
      mapGoogleLabelToCategory (toLowerCase label) = mapGoogleLabelToCategory label)
  /\ (forall a b,
         toLowerCase a = toLowerCase b ->
         mapGoogleLabelToCategory a = mapGoogleLabelToCategory b).
Proof.
  split.
  - intros label. unfold mapGoogleLabelToCategory.
    now rewrite toLowerCase_idempotent.
  - intros a b H. unfold mapGoogleLabelToCategory. now rewrite H.
Qed.

Lemma X18_mapper_ignores_case_witness :
  toLowerCase "EVENING Gown" = toLowerCase "evening gown"
  /\ mapGoogleLabelToCategory "EVENING Gown" = mapGoogleLabelToCategory "evening gown".
Proof.
  assert (H : toLowerCase "EVENING Gown" = toLowerCase "evening gown") by reflexivity.
  split; [exact H|].
  exact (proj2 X18_mapper_ignores_case _ _ H).
Defined.

(** X19.  The category mapper answers a category exactly when the
    lower-cased label contains none of the excluded texts and some
    keyword of the table, and the category is that of the first such
    keyword in the order of the table; in every other case it answers
    null. *)
Theorem X19_first_keyword_of_the_table_wins :
  forall (label : string) (category : ClothingCategory),
    mapGoogleLabelToCategory label = Some category
    <-> Forall (fun excluded => includes (toLowerCase label) excluded = false)
               excludeKeywords
        /\ exists earlier keyword later,
             categoryMap = (earlier ++ (keyword, category) :: later)%list
             /\ includes (toLowerCase label) keyword = true
             /\ Forall (fun entry => includes (toLowerCase label) (fst entry) = false)
                       earlier.
Proof.
  intros label category. unfold mapGoogleLabelToCategory. cbv zeta.
  set (low := toLowerCase label).
  destruct (existsb (fun keyword => includes low keyword) excludeKeywords) eqn:Hex.
  - split; [discriminate|].
    intros [Hnone _].
    apply (proj2 (existsb_false (fun keyword => includes low keyword) _)) in Hnone.
    rewrite Hnone in Hex. discriminate.
  - apply (proj1 (existsb_false (fun keyword => includes low keyword) _)) in Hex.
    destruct (find (fun entry => includes low (fst entry)) categoryMap)
      as [[keyword found]|] eqn:Hfind.
    + apply find_first in Hfind as (earlier & later & Hmap & Hkw & Hearlier).
      split.
      * intros [= <-]. split; [exact Hex|]. now exists earlier, keyword, later.
      * intros [_ (earlier' & keyword' & later' & Hmap' & Hkw' & Hearlier')].
        assert (Hsame : find (fun entry => includes low (fst entry)) categoryMap
                        = Some (keyword', category))
          by (apply find_first; now exists earlier', later').
        assert (Hfound : find (fun entry => includes low (fst entry)) categoryMap
                         = Some (keyword, found))
          by (apply find_first; now exists earlier, later).
        congruence.
    + split; [discriminate|].
      intros [_ (earlier & keyword & later & Hmap & Hkw & Hearlier)].
      assert (Hsame : find (fun entry => includes low (fst entry)) categoryMap
                      = Some (keyword, category))
        by (apply find_first; now exists earlier, later).
      congruence.
Qed.

Lemma X19_first_keyword_of_the_table_wins_witness :
  mapGoogleLabelToCategory "Dress shoes" = Some dress
  /\ exists earlier keyword later,
       categoryMap = (earlier ++ (keyword, dress) :: later)%list
       /\ includes (toLowerCase "Dress shoes") keyword = true
       /\ Forall (fun entry => includes (toLowerCase "Dress shoes") (fst entry) = false)
                 earlier.
Proof.
  assert (H : mapGoogleLabelToCategory "Dress shoes" = Some dress) by reflexivity.
  split; [exact H|].
  exact (proj2 (proj1 (X19_first_keyword_of_the_table_wins "Dress shoes" dress) H)).
Defined.

(* ===================================================================== *)
(** * Further properties: the tags of the upload screen *)
(* ===================================================================== *)

Section TagFacts.

Local Open Scope list_scope.

Lemma parts_nonempty (sep : N) (s : JsText.text) : JsText.split sep s <> [].
Proof.
  induction s as [|u s IH]; cbn [JsText.split]; [discriminate|].
  destruct (u =? sep)%N; [discriminate|].
  destruct (JsText.split sep s); discriminate.
Qed.

Lemma join_cons (sep : JsText.text) (u : N) (head : JsText.text) (tail : list JsText.text) :
  JsText.join sep ((u :: head) :: tail) = u :: JsText.join sep (head :: tail).
Proof. destruct tail; reflexivity. Qed.

(** The parts of a text, joined by the separator, are the text. *)
Lemma join_split (sep : N) (s : JsText.text) : JsText.join [sep] (JsText.split sep s) = s.
Proof.
  induction s as [|u s IH]; cbn [JsText.split]; [reflexivity|].
  destruct (u =? sep)%N eqn:Hu.
  - apply N.eqb_eq in Hu. subst u.
    destruct (JsText.split sep s) as [|head tail] eqn:Hs;
      [now apply parts_nonempty in Hs|].
    change (JsText.join [sep] ([] :: head :: tail))
      with (sep :: JsText.join [sep] (head :: tail)).
    now rewrite IH.
  - destruct (JsText.split sep s) as [|head tail] eqn:Hs;
      [now apply parts_nonempty in Hs|].
    now rewrite join_cons, IH.
Qed.

(** No part holds the separator. *)
Lemma split_free (sep : N) (s : JsText.text) :
  Forall (fun part => existsb (N.eqb sep) part = false) (JsText.split sep s).
Proof.
  induction s as [|u s IH]; cbn [JsText.split].
  - now constructor.
  - destruct (u =? sep)%N eqn:Hu; [now constructor|].
    destruct (JsText.split sep s) as [|head tail].
    + constructor; [|constructor]. cbn [existsb]. now rewrite N.eqb_sym, Hu.
    + inversion IH as [|? ? Hhead Htail]; subst.
      constructor; [|exact Htail].
      cbn [existsb]. rewrite Hhead, N.eqb_sym, Hu. reflexivity.
Qed.

Lemma split_part (sep : N) (part rest : JsText.text) :
  existsb (N.eqb sep) part = false ->
  JsText.split sep (part ++ sep :: rest) = part :: JsText.split sep rest.
Proof.
  induction part as [|u part IH]; cbn [existsb app JsText.split]; intros H.
  - now rewrite N.eqb_refl.
  - apply orb_false_iff in H as [Hu Hpart].
    rewrite N.eqb_sym, Hu, (IH Hpart). reflexivity.
Qed.

Lemma split_last (sep : N) (part : JsText.text) :
  existsb (N.eqb sep) part = false -> JsText.split sep part = [part].
Proof.
  induction part as [|u part IH]; cbn [existsb JsText.split]; intros H;
    [reflexivity|].
  apply orb_false_iff in H as [Hu Hpart].
  now rewrite N.eqb_sym, Hu, (IH Hpart).
Qed.

(** Parts without the separator, joined and split again, come back. *)
Lemma split_join (sep : N) (parts : list JsText.text) :
  parts <> [] ->
  Forall (fun part => existsb (N.eqb sep) part = false) parts ->
  JsText.split sep (JsText.join [sep] parts) = parts.
Proof.
  induction parts as [|part parts IH]; [contradiction|].
  intros _ Hfree. inversion Hfree as [|? ? Hpart Hparts]; subst.
  destruct parts as [|next parts].
  - exact (split_last sep part Hpart).
  - change (JsText.join [sep] (part :: next :: parts))
      with (part ++ sep :: JsText.join [sep] (next :: parts)).
    rewrite (split_part sep part _ Hpart).
    now rewrite IH.
Qed.

(** [trimStart] takes the longest run of white space off the start. *)
Lemma trimStart_spec (s : JsText.text) :
  exists before,
    s = before ++ JsText.trimStart s
    /\ forallb JsText.isWhiteSpace before = true
    /\ (forall u rest, JsText.trimStart s = u :: rest -> JsText.isWhiteSpace u = false).
Proof.
  induction s as [|u s (before & Hs & Hws & Hhead)]; cbn [JsText.trimStart].
  - exists []. repeat split. discriminate.
  - destruct (JsText.isWhiteSpace u) eqn:Hu.
    + exists (u :: before). cbn [app forallb]. rewrite Hu, Hws.
      split; [now rewrite <- Hs|]. split; [reflexivity | exact Hhead].
    + exists []. repeat split. now intros ? ? [= -> _].
Qed.

Lemma trimEnd_nil (s : JsText.text) :
  JsText.trimEnd s = [] -> forallb JsText.isWhiteSpace s = true.
Proof.
  induction s as [|u s IH]; cbn [JsText.trimEnd forallb]; [reflexivity|].
  destruct (JsText.trimEnd s) as [|v rest]; [|discriminate].
  destruct (JsText.isWhiteSpace u); [intros _; now apply IH | discriminate].
Qed.

(** [trimEnd] takes the longest run of white space off the end and
    leaves the start as it is. *)
Lemma trimEnd_spec (s : JsText.text) :
  exists after,
    s = JsText.trimEnd s ++ after
    /\ forallb JsText.isWhiteSpace after = true
    /\ (forall init u, JsText.trimEnd s = init ++ [u] -> JsText.isWhiteSpace u = false).
Proof.
  induction s as [|u s (after & Hs & Hws & Hlast)]; cbn [JsText.trimEnd].
  - exists []. repeat split. now intros [|? ?] ?.
  - destruct (JsText.trimEnd s) as [|v rest] eqn:Hend.
    + destruct (JsText.isWhiteSpace u) eqn:Hu.
      * exists (u :: after). cbn [app forallb]. rewrite Hu, Hws.
        split; [now rewrite Hs at 1|]. split; [reflexivity|].
        now intros [|? ?] ?.
      * exists after. split; [now rewrite Hs at 1|]. split; [exact Hws|].
        intros [|? [|? ?]] ? [= ]; now subst.
    + exists after. split; [now rewrite Hs at 1|]. split; [exact Hws|].
      intros init w Hw. destruct init as [|u' init].
      * discriminate Hw.
      * injection Hw as _ Hw. exact (Hlast init w Hw).
Qed.

Lemma trimEnd_head (s : JsText.text) (u : N) (rest : JsText.text) :
  JsText.trimEnd s = u :: rest -> exists rest', s = u :: rest'.
Proof.
  destruct s as [|v s]; cbn [JsText.trimEnd]; [discriminate|].
  destruct (JsText.trimEnd s); [destruct (JsText.isWhiteSpace v)|];
    intros [= <- _]; eauto.
Qed.

(** [trim] takes the white space off both ends, and nothing else. *)
Lemma trim_spec (s : JsText.text) :
  exists before after,
    s = before ++ JsText.trim s ++ after
    /\ forallb JsText.isWhiteSpace before = true
    /\ forallb JsText.isWhiteSpace after = true
    /\ (forall u rest, JsText.trim s = u :: rest -> JsText.isWhiteSpace u = false)
    /\ (forall init u, JsText.trim s = init ++ [u] -> JsText.isWhiteSpace u = false).
Proof.
  destruct (trimStart_spec s) as (before & Hs & Hbefore & Hhead).
  destruct (trimEnd_spec (JsText.trimStart s)) as (after & Ht & Hafter & Hlast).
  exists before, after. unfold JsText.trim.
  split; [now rewrite <- Ht|]. split; [exact Hbefore|]. split; [exact Hafter|].
  split; [|exact Hlast].
  intros u rest Hu. destruct (trimEnd_head _ _ _ Hu) as [rest' Hrest].
  exact (Hhead u rest' Hrest).
Qed.

(** A text without white space at its ends is left as it is. *)
Lemma trimEnd_clean (s : JsText.text) :
  (forall init u, s = init ++ [u] -> JsText.isWhiteSpace u = false) ->
  JsText.trimEnd s = s.
Proof.
  induction s as [|u s IH]; intros Hlast; cbn [JsText.trimEnd]; [reflexivity|].
  assert (Hs : JsText.trimEnd s = s).
  { apply IH. intros init v ->. exact (Hlast (u :: init) v eq_refl). }
  rewrite Hs. destruct s as [|v s]; [|reflexivity].
  now rewrite (Hlast [] u eq_refl).
Qed.

Lemma trim_clean (s : JsText.text) :
  (forall u rest, s = u :: rest -> JsText.isWhiteSpace u = false) ->
  (forall init u, s = init ++ [u] -> JsText.isWhiteSpace u = false) ->
  JsText.trim s = s.
Proof.
  intros Hhead Hlast. unfold JsText.trim.
  assert (Hs : JsText.trimStart s = s).
  { destruct s as [|u s]; [reflexivity|].
    cbn [JsText.trimStart]. now rewrite (Hhead u s eq_refl). }
  rewrite Hs. exact (trimEnd_clean s Hlast).
Qed.

Lemma trim_idempotent (s : JsText.text) : JsText.trim (JsText.trim s) = JsText.trim s.
Proof.
  destruct (trim_spec s) as (_ & _ & _ & _ & _ & Hhead & Hlast).
  exact (trim_clean (JsText.trim s) Hhead Hlast).
Qed.

Lemma trim_blank (s : JsText.text) :
  forallb JsText.isWhiteSpace s = true -> JsText.trim s = [].
Proof.
  unfold JsText.trim. induction s as [|u s IH]; cbn [forallb JsText.trimStart];
    [reflexivity|].
  intros H. apply andb_true_iff in H as [Hu Hs]. rewrite Hu. exact (IH Hs).
Qed.

(** The parts of a text of commas and white space are white space. *)
Lemma split_blank (s : JsText.text) :
  forallb (fun u => (u =? JsText.comma)%N || JsText.isWhiteSpace u) s = true ->
  Forall (fun part => forallb JsText.isWhiteSpace part = true) (JsText.split JsText.comma s).
Proof.
  induction s as [|u s IH]; cbn [forallb JsText.split].
  - intros _. now constructor.
  - intros H. apply andb_true_iff in H as [Hu Hs]. specialize (IH Hs).
    destruct (u =? JsText.comma)%N eqn:Hc; [now constructor|].
    cbn [orb] in Hu.
    destruct (JsText.split JsText.comma s) as [|head tail].
    + constructor; [|constructor]. cbn [forallb]. now rewrite Hu.
    + inversion IH as [|? ? Hhead Htail]; subst.
      constructor; [|exact Htail]. cbn [forallb]. now rewrite Hu, Hhead.
Qed.

Lemma filter_map_trim (parts : list JsText.text) :
  filter (fun tag => negb (JsText.isEmpty tag)) (map JsText.trim parts)
  = map JsText.trim (filter (fun part => negb (JsText.isEmpty (JsText.trim part))) parts).
Proof.
  induction parts as [|part parts IH]; cbn [map filter]; [reflexivity|].
  destruct (negb (JsText.isEmpty (JsText.trim part))); cbn [map]; now rewrite IH.
Qed.

Lemma isEmpty_false (s : JsText.text) : negb (JsText.isEmpty s) = true <-> s <> [].
Proof. destruct s; cbn; split; congruence. Qed.

End TagFacts.

(** X22.  The tags the upload screen stores, from the text of its tag
    field, are the parts of the text between its commas, each without
    the white space at its two ends, the parts that are white space
    alone left out, in the order of the text.  Nothing else is stored
    and no other part is left out; in particular a field of commas and
    white space alone stores no tag.  White space is that of
    JavaScript: an ideographic space is trimmed, and no part of a
    Chinese character is. *)
Theorem X22_stored_tags_are_trimmed_and_not_empty :
  forall tags : JsText.text,
    let parts := JsText.split JsText.comma tags in
    JsText.join [JsText.comma] parts = tags
    /\ Forall (fun part => existsb (N.eqb JsText.comma) part = false) parts
    /\ Forall (fun part =>
                 exists before after,
                   part = (before ++ JsText.trim part ++ after)%list
                   /\ forallb JsText.isWhiteSpace before = true
                   /\ forallb JsText.isWhiteSpace after = true
                   /\ (forall u rest,
                          JsText.trim part = u :: rest ->
                          JsText.isWhiteSpace u = false)
                   /\ (forall init u,
                          JsText.trim part = (init ++ [u])%list ->
                          JsText.isWhiteSpace u = false))
              parts
    /\ UploadScreen.parseTags tags
       = map JsText.trim
             (filter (fun part => negb (JsText.isEmpty (JsText.trim part))) parts)
    /\ (forall tag,
           In tag (UploadScreen.parseTags tags)
           <-> tag <> [] /\ exists part, In part parts /\ tag = JsText.trim part)
    /\ (forallb (fun u => (u =? JsText.comma)%N || JsText.isWhiteSpace u) tags = true ->
        UploadScreen.parseTags tags = []).
Proof.
  intros tags parts.
  split; [exact (join_split JsText.comma tags)|].
  split; [exact (split_free JsText.comma tags)|].
  split; [apply Forall_forall; intros part _; exact (trim_spec part)|].
  split; [exact (filter_map_trim parts)|].
  split.
  - intros tag. unfold UploadScreen.parseTags. fold parts.
    rewrite filter_In, in_map_iff, isEmpty_false. split.
    + intros [(part & <- & Hin) Hne]. split; [exact Hne|]. now exists part.
    + intros [Hne (part & Hin & ->)]. split; [now exists part | exact Hne].
  - intros Hblank. unfold UploadScreen.parseTags. fold parts.
    rewrite filter_map_trim.
    pose proof (split_blank tags Hblank) as Hparts. fold parts in Hparts.
    induction Hparts as [|part rest Hpart _ IH]; [reflexivity|].
    cbn [filter]. now rewrite (trim_blank part Hpart).
Qed.

Lemma X22_stored_tags_are_trimmed_and_not_empty_witness :
  let field := JsText.ofUtf8 " shirt, blue ,,summer , " in
  UploadScreen.parseTags field = map JsText.ofUtf8 ["shirt"; "blue"; "summer"]
  /\ In (JsText.ofUtf8 "blue") (UploadScreen.parseTags field)
  /\ UploadScreen.parseTags (JsText.ofUtf8 " , ,,") = []
  /\ UploadScreen.parseTags (JsText.ofUtf8 "　休闲,棉质　")
     = map JsText.ofUtf8 ["休闲"; "棉质"]
  /\ UploadScreen.parseTags (JsText.ofUtf8 "睡眠") = [JsText.ofUtf8 "睡眠"].
Proof.
  intros field.
  destruct (X22_stored_tags_are_trimmed_and_not_empty field)
    as (_ & _ & _ & Hfield & Hin & _).
  destruct (X22_stored_tags_are_trimmed_and_not_empty (JsText.ofUtf8 " , ,,"))
    as (_ & _ & _ & _ & _ & Hblank).
  destruct (X22_stored_tags_are_trimmed_and_not_empty
              (JsText.ofUtf8 "　休闲,棉质　")) as (_ & _ & _ & Hwide & _).
  destruct (X22_stored_tags_are_trimmed_and_not_empty (JsText.ofUtf8 "睡眠"))
    as (_ & _ & _ & Hsleep & _).
  split; [rewrite Hfield; vm_compute; reflexivity|].
  split.
  { apply (proj2 (Hin (JsText.ofUtf8 "blue"))).
    split; [discriminate|].
    exists (JsText.ofUtf8 " blue ").
    split; [right; left; vm_compute; reflexivity | vm_compute; reflexivity]. }
  split; [exact (Hblank eq_refl)|].
  split; [rewrite Hwide; vm_compute; reflexivity|].
  rewrite Hsleep; vm_compute; reflexivity.
Defined.

(** X23.  The text [handleAIRecognition] writes into the tag field and
    [handleSave] reads back: a bundle of tags joined by commas and
    parsed again is the same bundle, when no tag is empty, has white
    space at an end ([trim] leaves it as it is) or holds a comma.  The
    five bundles of [suggestTags] are such bundles: what is suggested
    is what is stored. *)
Theorem X23_suggested_tags_survive_the_tag_field :
  (forall bundle : list JsText.text,
      Forall (fun tag =>
                tag <> []
                /\ JsText.trim tag = tag
                /\ existsb (N.eqb JsText.comma) tag = false) bundle ->
      UploadScreen.parseTags (UploadScreen.tagsField bundle) = bundle)
  /\ Forall (fun bundle =>
               UploadScreen.parseTags
                 (UploadScreen.tagsField (map JsText.ofUtf8 bundle))
               = map JsText.ofUtf8 bundle)
            possibleTags.
Proof.
  assert (Hall : forall bundle : list JsText.text,
             Forall (fun tag =>
                       tag <> []
                       /\ JsText.trim tag = tag
                       /\ existsb (N.eqb JsText.comma) tag = false) bundle ->
             UploadScreen.parseTags (UploadScreen.tagsField bundle) = bundle).
  { intros bundle Hbundle.
    destruct bundle as [|tag bundle]; [reflexivity|].
    unfold UploadScreen.parseTags, UploadScreen.tagsField.
    rewrite split_join; [|discriminate|].
    2: { eapply Forall_impl; [|exact Hbundle]. cbn beta. tauto. }
    induction Hbundle as [|t rest (Hne & Htrim & _) _ IH]; [reflexivity|].
    cbn [map filter]. rewrite Htrim.
    destruct t; [contradiction|]. cbn [JsText.isEmpty negb]. now rewrite IH. }
  split; [exact Hall|].
  repeat constructor; apply Hall;
    repeat constructor; try discriminate; vm_compute; reflexivity.
Qed.

Lemma X23_suggested_tags_survive_the_tag_field_witness :
  let bundle := map JsText.ofUtf8 ["casual"; "棉质"; "基础款"] in
  UploadScreen.tagsField bundle = JsText.ofUtf8 "casual,棉质,基础款"
  /\ UploadScreen.parseTags (JsText.ofUtf8 "casual,棉质,基础款") = bundle.
Proof.
  intros bundle.
  assert (Hfield : UploadScreen.tagsField bundle
                   = JsText.ofUtf8 "casual,棉质,基础款")
    by (vm_compute; reflexivity).
  split; [exact Hfield|].
  rewrite <- Hfield.
  apply (proj1 X23_suggested_tags_survive_the_tag_field).
  repeat constructor; try discriminate; vm_compute; reflexivity.
Defined.

(* ===================================================================== *)
(** * Further properties: errors and stubs *)
(* ===================================================================== *)

(** X12.  [removeBackgroundWithRemoveBg] throws errors of three kinds
    only: the timeout text, the general text, or an error whose text
    contains "API" (the text about the missing key is one of these). *)
Theorem X12_removal_error_kinds :
  forall (World : Type) (P : Platform World) (imageUri : string) (w w' : World)
         (e : JsError),
    removeBackgroundWithRemoveBg P imageUri w = (Rejected e, w') ->
    e = Error "请求超时，请检查网络连接"
    \/ e = Error "背景移除失败，请稍后重试"
    \/ includes (message e) "API" = true.
Proof.
  intros World P imageUri w w' e.
  unfold removeBackgroundWithRemoveBg. cbv zeta.
  destruct (negb (truthy _) || _).
  - unfold throw. intros [= <- _]. right. right. vm_compute. reflexivity.
  - unfold tryCatch, throw.
    destruct (removeBgRequest P (REMOVE_BG_API_KEY P) imageUri w) as [[uri|e0] w0];
      [discriminate|].
    destruct (message e0 =? "Request timeout")%string; [intros [= <- _]; now left|].
    destruct (includes (message e0) "API") eqn:Hapi; intros [= <- _].
    + right. right. exact Hapi.
    + right. now left.
Qed.

Lemma X12_removal_error_kinds_witness :
  let P := Device.mattingWorks [] {| exists_ := false; info_size := 0 |} in
  removeBackgroundWithRemoveBg P Device.cropped 0
  = (Rejected (Error "背景移除失败，请稍后重试"), 0)
  /\ (Error "背景移除失败，请稍后重试" = Error "请求超时，请检查网络连接"
      \/ Error "背景移除失败，请稍后重试" = Error "背景移除失败，请稍后重试"
      \/ includes (message (Error "背景移除失败，请稍后重试")) "API" = true).
Proof.
  intros P.
  assert (H : removeBackgroundWithRemoveBg P Device.cropped 0
              = (Rejected (Error "背景移除失败，请稍后重试"), 0))
    by (vm_compute; reflexivity).
  split; [exact H|].
  exact (X12_removal_error_kinds Device.World P Device.cropped 0 0 _ H).
Defined.

(** X20.  [segmentWithRemoveBg] crops nothing: when the background
    removal resolves, it resolves with a top of confidence 0.9 and a
    bottom of confidence 0.85 that both show the whole image the
    background removal resolved with, and it throws only when the
    background removal throws. *)
Theorem X20_segmentWithRemoveBg_crops_nothing :
  forall (World : Type) (P : Platform World) (imageUri : string) (w : World),
    (forall transparentUri w',
        removeBackground P imageUri w = (Resolved transparentUri, w') ->
        exists topBox bottomBox,
          segmentWithRemoveBg P imageUri w
          = (Resolved [ itemOf top transparentUri topBox (literal 9 1);
                        itemOf bottom transparentUri bottomBox (literal 85 2) ], w'))
    /\ (forall e w',
           segmentWithRemoveBg P imageUri w = (Rejected e, w') ->
           removeBackground P imageUri w = (Rejected e, w')).
Proof.
  intros World P imageUri w.
  unfold segmentWithRemoveBg, analyzeTransparentImage. split.
  - intros transparentUri w' H.
    rewrite (bind_resolved _ _ _ _ _ H). eexists. eexists. reflexivity.
  - intros e w'. unfold bind at 1.
    destruct (removeBackground P imageUri w) as [[uri|e0] w0]; [discriminate|].
    now intros [= <- <-].
Qed.

Lemma X20_segmentWithRemoveBg_crops_nothing_witness :
  let P := Device.device "vision-key" "" (Device.answer []) timerFired onerror
                         Device.written in
  exists topBox bottomBox,
    segmentWithRemoveBg P Device.outfit 0
    = (Resolved [ itemOf top Device.outfit topBox (literal 9 1);
                  itemOf bottom Device.outfit bottomBox (literal 85 2) ], 2000).
Proof.
  intros P.
  exact (proj1 (X20_segmentWithRemoveBg_crops_nothing Device.World P Device.outfit 0)
               Device.outfit 2000 eq_refl).
Defined.

Section FilteredOut.

Context {World : Type} (P : Platform World).

(** A detection the filters reject before anything is cropped: its
    score is below the floor, or its label maps to no category. *)
Lemma forOf_filtered_out imageUri imageWidth imageHeight objects :
  Forall (fun obj =>
            exists s : JsonNumber,
              score obj = Some s
              /\ (lt s CONFIDENCE_THRESHOLD = true
                  \/ exists label, name obj = Some label
                                   /\ mapGoogleLabelToCategory label = None))
         objects ->
  forall items w,
    forOf P imageUri imageWidth imageHeight objects items w = (Resolved items, w).
Proof.
  induction 1 as [|obj objects (s & Hs & Hwhy) _ IH]; intros items w; [reflexivity|].
  cbn [forOf]. unfold bind.
  assert (Hobj : processObject P imageUri imageWidth imageHeight items obj w
                 = (Resolved items, w)).
  { unfold processObject. rewrite Hs.
    destruct (lt s CONFIDENCE_THRESHOLD); [reflexivity|].
    destruct Hwhy as [Hlt | (label & Hn & Hc)]; [discriminate|].
    now rewrite Hn, Hc. }
  rewrite Hobj. apply IH.
Qed.

End FilteredOut.

(** X21.  When every detection of the answer is below the confidence
    floor or has a label that maps to no category, the real path crops
    nothing and calls no service again: it throws its no-results error
    in the state the answer left, and [segmentClothing] resolves with the
    mock items. *)
Theorem X21_filtered_detections_give_mock_items :
  forall (World : Type) (P : Platform World) (imageUri : string) (w w1 : World)
         imageWidth imageHeight annotations objects,
    configured P ->
    annotate P (GOOGLE_VISION_API_KEY P) imageUri w
    = (Resolved (imageWidth, imageHeight, annotations), w1) ->
    localizedObjectAnnotations annotations = Some objects ->
    Forall (fun obj =>
              exists s : JsonNumber,
                score obj = Some s
                /\ (lt s CONFIDENCE_THRESHOLD = true
                    \/ exists label, name obj = Some label
                                     /\ mapGoogleLabelToCategory label = None))
           objects ->
    segmentWithGoogleVision P imageUri w
    = (Rejected (Error "未识别到服装物品，请尝试其他照片"), w1)
    /\ segmentClothing P imageUri w
       = (Resolved (mockItems imageUri), setTimeout P 2000 w1).
Proof.
  intros World P imageUri w w1 imageWidth imageHeight annotations objects
         Hconf Ha Hobjs Hall.
  apply (nothing_collected_gives_mock P imageUri w imageWidth imageHeight
           annotations w1 w1 Hconf Ha).
  unfold collectItems. rewrite Hobjs.
  apply forOf_filtered_out.
  apply (Permutation_Forall (Permutation_sym (sort_permutation byScore objects))).
  exact Hall.
Qed.

Lemma X21_filtered_detections_give_mock_items_witness :
  let objects := [ Device.localized "Umbrella" (Device.jsonNumber 9 1 eq_refl)
                                    (Device.quad 0 0 5 5);
                   Device.localized "Red dress" (Device.jsonNumber 29 2 eq_refl)
                                    (Device.quad 1 2 6 7) ] in
  let P := Device.mattingWorks objects Device.written in
  segmentWithGoogleVision P Device.outfit 0
  = (Rejected (Error "未识别到服装物品，请尝试其他照片"), 0)
  /\ segmentClothing P Device.outfit 0 = (Resolved (mockItems Device.outfit), 2000).
Proof.
  intros objects P.
  refine (X21_filtered_detections_give_mock_items
            Device.World P Device.outfit 0 0 (of_Z 1000) (of_Z 1000)
            {| localizedObjectAnnotations := Some objects |} objects _ _ eq_refl _).
  - split; [reflexivity | discriminate].
  - vm_compute; reflexivity.
  - constructor; [|constructor; [|constructor]].
    + exists (Device.jsonNumber 9 1 eq_refl). split; [reflexivity|].
      right. exists "Umbrella". split; reflexivity.
    + exists (Device.jsonNumber 29 2 eq_refl). split; [reflexivity|].
      left. vm_compute; reflexivity.
Defined.
